(** * The partner program application sheet

    A shallow embedding of [apps/web/ui/partners/program-application-sheet.tsx]:
    the content component [ProgramApplicationSheetContent] with its three
    closures (the action's [onSuccess] and [onError] callbacks and the form's
    [onSubmit] handler), the panel shell [ProgramApplicationSheet] and the
    hook [useProgramApplicationSheet].

    A mounted content component is a transition system.  Its state holds what
    the hooks of the component keep between renders (the form state of
    [useForm], the partner profile of [usePartnerProfile], the calls issued
    through [executeAsync] that have not settled) together with the state
    cells of the panel's owner and a log of the calls made to the outside
    (toasts, cache invalidation, callbacks, the remote action).  Every
    event happens under the props of one render: [step props] takes them as
    an argument, [run props] is a run in which the parent renders the same
    props throughout, and [play] is a run in which each event comes with the
    props of its own render.  The partner profile is a subscription and may
    change at any time.

    The component is glue over three collaborators whose code is not part
    of the file: the form library ([useForm]), the action wrapper
    ([useAction]) and the shared [Button].  Their contracts are modelled
    from the specification and marked as such; everything else follows the
    component line by line. *)

From Stdlib Require Import String List Bool Arith Lia.
Import ListNotations.
Open Scope string_scope.
Open Scope list_scope.

(** ** JavaScript conventions used by the component *)

(** Truthiness of an optional string: [undefined], [null] and the empty
    string are falsy. *)
Definition truthy (s : option string) : bool :=
  match s with
  | Some v => negb (v =? "")
  | None => false
  end.

(** [a || d] for an optional string [a] and a string [d]. *)
Definition js_or (a : option string) (d : string) : string :=
  match a with
  | Some v => if v =? "" then d else v
  | None => d
  end.

(** [a ?? undefined]: [null] and [undefined] are both [None]. *)
Definition nullish_undefined (a : option string) : option string := a.

(** ** Data model *)

Module Program.
Record t := mk
  { id : string;
    slug : string;
    name : string;
    domain : string;
    logo : option string;
    termsUrl : option string }.
End Program.

Module Partner.
Record t := mk
  { email : option string;
    name : string;
    website : option string }.
End Partner.

(** [type FormData]: the fields of the application schema that the user
    fills, plus [termsAgreement]. *)
Module FormData.
Record t := mk
  { proposal : string;
    comments : option string;
    termsAgreement : bool }.
End FormData.

(** The argument of [executeAsync]: [{...data, email, name, website, programId}]. *)
Module Payload.
Record t := mk
  { proposal : string;
    comments : option string;
    termsAgreement : bool;
    email : string;
    name : string;
    website : option string;
    programId : string }.
End Payload.

(** ** State cells and their dispatchers

    [Dispatch<SetStateAction<boolean>>] is the setter of a boolean state
    cell.  Cells live in a store shared by the owner of the panel and the
    content component; a dispatcher is bound to one cell. *)

Definition Cell := nat.
Definition Store := Cell -> bool.

Inductive SetStateAction :=
| SetValue (b : bool)
| Update (f : bool -> bool).

Record Dispatch := dispatcher { target : Cell }.

Definition write (c : Cell) (v : bool) (st : Store) : Store :=
  fun c' => if Nat.eqb c' c then v else st c'.

Definition apply_action (a : SetStateAction) (old : bool) : bool :=
  match a with
  | SetValue b => b
  | Update f => f old
  end.

Definition dispatch (d : Dispatch) (a : SetStateAction) (st : Store) : Store :=
  write (target d) (apply_action a (st (target d))) st.

(** An opaque callback of the parent, known by its handle. *)
Inductive Callback := callback (handle : nat).

(** [interface ProgramApplicationSheetProps] *)
Record ProgramApplicationSheetProps := mkProps
  { setIsOpen : Dispatch;
    program : option Program.t;
    onSuccess : option Callback }.

(** ** Form state ([useForm<FormData>]) *)

Inductive ErrorType := required_error | validate_error | manual_error.

Record FieldError := mkError
  { type : ErrorType;
    message : string }.

(** The field names that [setError] and [errors] are used with. *)
Inductive FieldName :=
| proposal_field
| comments_field
| termsAgreement_field
| root_serverError.

Record FieldErrors := mkErrors
  { err_proposal : option FieldError;
    err_comments : option FieldError;
    err_termsAgreement : option FieldError;
    err_root_serverError : option FieldError }.

Definition no_errors : FieldErrors := mkErrors None None None None.

Record FormState := mkForm
  { values : FormData.t;
    errors : FieldErrors;
    isSubmitting : bool;
    isSubmitSuccessful : bool;
    isSubmitted : bool }.

(** [useForm({ defaultValues: { termsAgreement: false } })]; the two text
    areas start empty. *)
Definition defaultValues : FormData.t := FormData.mk "" None false.

Definition useForm_initial : FormState :=
  mkForm defaultValues no_errors false false false.

(** ** Calls to the outside, in the order they are made *)

Inductive Effect :=
| CallSetIsOpen (d : Dispatch) (a : SetStateAction)
| CallMutate (key : string)
| CallToastSuccess (msg : string)
| CallToastError (msg : string)
| CallOnSuccess (cb : Callback)
| CallAction (input : Payload.t).

(** ** State of a mounted content component *)

Record State := mkState
  { store : Store;
    partner : option Partner.t;
    form : FormState;
    inFlight : list Payload.t;
    log : list Effect }.

Definition with_store (f : Store -> Store) (s : State) : State :=
  mkState (f (store s)) (partner s) (form s) (inFlight s) (log s).
Definition with_partner (p : option Partner.t) (s : State) : State :=
  mkState (store s) p (form s) (inFlight s) (log s).
Definition with_form (f : FormState -> FormState) (s : State) : State :=
  mkState (store s) (partner s) (f (form s)) (inFlight s) (log s).
Definition with_inFlight (f : list Payload.t -> list Payload.t) (s : State) : State :=
  mkState (store s) (partner s) (form s) (f (inFlight s)) (log s).
Definition emit (e : Effect) (s : State) : State :=
  mkState (store s) (partner s) (form s) (inFlight s) (log s ++ [e]).

(** ** A state monad with exceptions for the handlers *)

Inductive Exception := TypeError (msg : string).

Inductive Completion (A : Type) :=
| Normal (a : A)
| Throw (e : Exception).
Arguments Normal {A} a.
Arguments Throw {A} e.

Definition M (A : Type) := State -> Completion A * State.

Definition ret {A} (a : A) : M A := fun s => (Normal a, s).

Definition bind {A B} (m : M A) (k : A -> M B) : M B :=
  fun s =>
    match m s with
    | (Normal a, s') => k a s'
    | (Throw e, s') => (Throw e, s')
    end.

Definition throw {A} (e : Exception) : M A := fun s => (Throw e, s).

Definition modify (f : State -> State) : M unit := fun s => (Normal tt, f s).

Declare Scope js_scope.
Delimit Scope js_scope with js.
Notation "x <- m ;; k" := (bind m (fun x => k))
  (at level 61, m at next level, right associativity) : js_scope.
Notation "m ;; k" := (bind m (fun _ => k))
  (at level 61, right associativity) : js_scope.
Open Scope js_scope.

(** *** The calls the handlers make *)

(** [d(a)] for a state dispatcher [d]. *)
Definition call_dispatch (d : Dispatch) (a : SetStateAction) : M unit :=
  modify (fun s => emit (CallSetIsOpen d a) (with_store (dispatch d a) s)).

(** swr's [mutate(key)]. *)
Definition mutate (key : string) : M unit := modify (emit (CallMutate key)).

(** sonner's [toast.success] and [toast.error]. *)
Definition toast_success (msg : string) : M unit := modify (emit (CallToastSuccess msg)).
Definition toast_error (msg : string) : M unit := modify (emit (CallToastError msg)).

(** [cb?.()] *)
Definition optional_call (cb : option Callback) : M unit :=
  match cb with
  | Some f => modify (emit (CallOnSuccess f))
  | None => ret tt
  end.

(** [x!.field]: the assertion is erased, reading a field of [undefined]
    throws. *)
Definition non_null {A} (x : option A) : M A :=
  match x with
  | Some a => ret a
  | None => throw (TypeError "Cannot read properties of undefined")
  end.

Definition set_error (n : FieldName) (e : FieldError) (errs : FieldErrors) : FieldErrors :=
  match n with
  | proposal_field =>
      mkErrors (Some e) (err_comments errs) (err_termsAgreement errs) (err_root_serverError errs)
  | comments_field =>
      mkErrors (err_proposal errs) (Some e) (err_termsAgreement errs) (err_root_serverError errs)
  | termsAgreement_field =>
      mkErrors (err_proposal errs) (err_comments errs) (Some e) (err_root_serverError errs)
  | root_serverError =>
      mkErrors (err_proposal errs) (err_comments errs) (err_termsAgreement errs) (Some e)
  end.

Definition with_errors (f : FieldErrors -> FieldErrors) (fs : FormState) : FormState :=
  mkForm (values fs) (f (errors fs)) (isSubmitting fs) (isSubmitSuccessful fs)
    (isSubmitted fs).

(** [setError(name, { message })] *)
Definition setError (n : FieldName) (msg : string) : M unit :=
  modify (with_form (with_errors (set_error n (mkError manual_error msg)))).

(** Modelled from the spec: the [executeAsync] of the action wrapper
    (next-safe-action is not in src/).  Spec 6: the remote action is called
    with the input; the call is in flight until it settles. *)
Definition executeAsync (input : Payload.t) : M unit :=
  modify (fun s => emit (CallAction input) (with_inFlight (fun l => l ++ [input]) s)).

(** ** The form library: field registration and validation at submit time *)

(** The options of [register(name, options)] that the component uses. *)
Record RegisterOptions (V : Type) := mkOptions
  { required : bool;
    validate : option (V -> bool) }.
Arguments mkOptions {V} required validate.
Arguments required {V} r.
Arguments validate {V} r.

(** The fields registered by one render; a field that is not rendered is
    not registered. *)
Record Registered := mkRegistered
  { reg_proposal : option (RegisterOptions string);
    reg_comments : option (RegisterOptions (option string));
    reg_termsAgreement : option (RegisterOptions bool) }.

(** Modelled from the spec: the form library's check of one registered field
    (react-hook-form is not in src/).  Spec 4.1: a required field must be
    non-empty, a required checkbox must be checked, and a field with a
    [validate] rule must satisfy it; spec 7: the failure is attached to the
    offending field. *)
Definition validateField {V} (is_empty : V -> bool) (o : RegisterOptions V) (v : V)
  : option FieldError :=
  if required o && is_empty v then Some (mkError required_error "")
  else
    match validate o with
    | Some ok => if ok v then None else Some (mkError validate_error "")
    | None => None
    end.

Definition empty_text (v : string) : bool := v =? "".
Definition empty_optional_text (v : option string) : bool := negb (truthy v).
Definition empty_checkbox (v : bool) : bool := negb v.

(** A field that is registered is validated, another keeps what it has. *)
Definition field_check {V} (is_empty : V -> bool) (reg : option (RegisterOptions V)) (v : V)
  (old : option FieldError) : option FieldError :=
  match reg with
  | Some o => validateField is_empty o v
  | None => old
  end.

(** Modelled from the spec: the form library's validation pass (spec 9:
    per-field validators evaluated at submit time).  The error of every
    registered field is recomputed; the root error is left alone. *)
Definition executeBuiltInValidation (reg : Registered) (v : FormData.t) (old : FieldErrors)
  : FieldErrors :=
  mkErrors
    (field_check empty_text (reg_proposal reg) (FormData.proposal v) (err_proposal old))
    (field_check empty_optional_text (reg_comments reg) (FormData.comments v) (err_comments old))
    (field_check empty_checkbox (reg_termsAgreement reg) (FormData.termsAgreement v)
       (err_termsAgreement old))
    (err_root_serverError old).

(** [unset(errors, "root")] *)
Definition unset_root (errs : FieldErrors) : FieldErrors :=
  mkErrors (err_proposal errs) (err_comments errs) (err_termsAgreement errs) None.

Definition is_none {A} (x : option A) : bool :=
  match x with Some _ => false | None => true end.

Definition isEmptyObject (errs : FieldErrors) : bool :=
  is_none (err_proposal errs) && is_none (err_comments errs)
  && is_none (err_termsAgreement errs) && is_none (err_root_serverError errs).

Definition set_submitting (b : bool) (fs : FormState) : FormState :=
  mkForm (values fs) (errors fs) b (isSubmitSuccessful fs) (isSubmitted fs).

(** Modelled from the spec: the end of the form library's submit wrapper.
    The form leaves the submitting state and has now been submitted; the
    submission counts as successful when the form carries no error at that
    moment and the handler did not throw. *)
Definition submit_finished (threw : bool) (fs : FormState) : FormState :=
  mkForm (values fs) (errors fs) false (isEmptyObject (errors fs) && negb threw) true.

(** ** The result of the remote action *)

(** [error] as [onError] receives it. *)
Record ActionError := mkActionError
  { serverError : option string }.

Inductive ActionResult :=
| ActionSuccess
| ActionFailure (error : ActionError).

(** ** [ProgramApplicationSheetContent] *)

(** What an [async] handler is doing when it hands control back. *)
Inductive Suspension := returned | awaiting.

(** The value of [usePartnerProfile()] in the current render. *)
Definition usePartnerProfile : M (option Partner.t) :=
  fun s => (Normal (partner s), s).

(** [partner?.email] *)
Definition partner_email (q : option Partner.t) : option string :=
  match q with
  | Some r => Partner.email r
  | None => None
  end.

Definition is_some {A} (x : option A) : bool := negb (is_none x).

Record TermsCheckbox := mkTerms
  { terms_href : string;
    terms_checked : bool;
    terms_invalid : bool }.

Record SubmitButton := mkButton
  { button_text : string;
    loading : bool }.

(** What the component returns when it renders the form. *)
Record View := mkView
  { title : string;
    domain_text : string;
    proposal_label : string;
    proposal_value : string;
    proposal_invalid : bool;
    comments_value : option string;
    comments_invalid : bool;
    terms_checkbox : option TermsCheckbox;
    submit_button : SubmitButton }.

(** Modelled from the spec: the shared button (packages/ui is not in src/).
    Spec 4.1 and 5: a loading button is disabled, it submits nothing. *)
Definition button_disabled (b : SubmitButton) : bool := loading b.

Definition optional_text_eqb (a b : option string) : bool :=
  match a, b with
  | Some x, Some y => x =? y
  | None, None => true
  | _, _ => false
  end.

(** A field whose value has changed is validated again, if it is
    registered; another keeps the error it has. *)
Definition recheck {V} (same_value : V -> V -> bool) (is_empty : V -> bool)
  (reg : option (RegisterOptions V)) (before now : V) (old : option FieldError)
  : option FieldError :=
  if same_value before now then old else field_check is_empty reg now old.

Definition revalidate (reg : Registered) (before now : FormData.t) (old : FieldErrors)
  : FieldErrors :=
  mkErrors
    (recheck String.eqb empty_text (reg_proposal reg)
       (FormData.proposal before) (FormData.proposal now) (err_proposal old))
    (recheck optional_text_eqb empty_optional_text (reg_comments reg)
       (FormData.comments before) (FormData.comments now) (err_comments old))
    (recheck Bool.eqb empty_checkbox (reg_termsAgreement reg)
       (FormData.termsAgreement before) (FormData.termsAgreement now)
       (err_termsAgreement old))
    (err_root_serverError old).

(** Modelled from the spec: the form library's change handler
    (react-hook-form is not in src/).  Spec 9 has the validators evaluated at
    submit time, and [useForm] is called without a validation mode (lines
    43-47), so nothing is validated while the user types before the first
    submit has finished; with those default options the library validates a
    registered field again each time its value changes once the form has
    been submitted.  The values are stored; the root error and the
    submission flags are left alone. *)
Definition onChange (reg : Registered) (v : FormData.t) (fs : FormState) : FormState :=
  mkForm v
    (if isSubmitted fs then revalidate reg (values fs) v (errors fs) else errors fs)
    (isSubmitting fs) (isSubmitSuccessful fs) (isSubmitted fs).

Fixpoint remove_nth {A} (k : nat) (l : list A) : list A :=
  match l, k with
  | [], _ => []
  | _ :: rest, O => rest
  | x :: rest, S k' => x :: remove_nth k' rest
  end.

(** Modelled from the spec: the form library's submit wrapper, from the
    submit event to the point where the handler returns or awaits the
    remote call (spec 4.1: on submit, validate, then invoke the handler;
    spec 7: a validation failure blocks the submission).  The form enters
    the submitting state, the registered fields are validated and the root
    error of an earlier attempt is dropped; the handler runs only when no
    field is in error. *)
Definition handleSubmit (reg : Registered) (onValid : FormData.t -> M Suspension)
  (s : State) : State :=
  let s1 := with_form (set_submitting true) s in
  let errs := unset_root (executeBuiltInValidation reg (values (form s1)) (errors (form s1))) in
  let s2 := with_form (with_errors (fun _ => errs)) s1 in
  if isEmptyObject errs then
    match onValid (values (form s2)) s2 with
    | (Normal awaiting, s3) => s3
    | (Normal returned, s3) => with_form (submit_finished false) s3
    | (Throw _, s3) => with_form (submit_finished true) s3
    end
  else with_form (submit_finished false) s2.

Section Content.

Variable props : ProgramApplicationSheetProps.

(** [useAction(createProgramApplicationAction, { onSuccess })] *)
Definition useAction_onSuccess : M unit :=
  call_dispatch (setIsOpen props) (SetValue false) ;;
  p <- non_null (program props) ;;
  mutate ("/api/partner-profile/programs/" ++ Program.slug p)%string ;;
  toast_success "Application submitted!" ;;
  optional_call (onSuccess props).

(** [useAction(createProgramApplicationAction, { onError })] *)
Definition useAction_onError (error : ActionError) : M unit :=
  setError root_serverError (js_or (serverError error) "Failed to submit application") ;;
  toast_error (js_or (serverError error) "Failed to submit application").

(** [const onSubmit = async (data: FormData) => ...]; after the guard the
    reads of [program], [partner] and [partner.email] are reads of values
    the guard has found present. *)
Definition onSubmit (data : FormData.t) : M Suspension :=
  q <- usePartnerProfile ;;
  if negb (is_some (program props)) || negb (truthy (partner_email q)) then ret returned
  else
    prog <- non_null (program props) ;;
    r <- non_null q ;;
    e <- non_null (Partner.email r) ;;
    executeAsync
      {| Payload.proposal := FormData.proposal data;
         Payload.comments := FormData.comments data;
         Payload.termsAgreement := FormData.termsAgreement data;
         Payload.email := e;
         Payload.name := Partner.name r;
         Payload.website := nullish_undefined (Partner.website r);
         Payload.programId := Program.id prog |} ;;
    ret awaiting.

(** The checkbox block [program.termsUrl && (...)]. *)
Definition render_terms (prog : Program.t) (fs : FormState) : option TermsCheckbox :=
  match Program.termsUrl prog with
  | Some url =>
      if truthy (Some url) then
        Some {| terms_href := url;
                terms_checked := FormData.termsAgreement (values fs);
                terms_invalid := is_some (err_termsAgreement (errors fs)) |}
      else None
  | None => None
  end.

(** The body of the component after the hooks: [if (!program) return null]
    and the JSX. *)
Definition render (fs : FormState) : option View :=
  match program props with
  | None => None
  | Some prog =>
      Some
        {| title := Program.name prog;
           domain_text := Program.domain prog;
           proposal_label := ("How do you plan to promote " ++ Program.name prog ++ "?")%string;
           proposal_value := FormData.proposal (values fs);
           proposal_invalid := is_some (err_proposal (errors fs));
           comments_value := FormData.comments (values fs);
           comments_invalid := is_some (err_comments (errors fs));
           terms_checkbox := render_terms prog fs;
           submit_button :=
             {| button_text := "Submit application";
                loading := isSubmitting fs || isSubmitSuccessful fs |} |}
  end.

(** The [register] calls of one render. *)
Definition registered (prog : Program.t) : Registered :=
  {| reg_proposal := Some (mkOptions true None);
     reg_comments := Some (mkOptions false None);
     reg_termsAgreement :=
       if truthy (Program.termsUrl prog)
       then Some (mkOptions true (Some (fun v => Bool.eqb v true)))
       else None |}.

(** *** The mounted component as a transition system *)

Inductive Event :=
| ProfileChanged (q : option Partner.t)
| Input (v : FormData.t)
| SubmitClick
| Settled (k : nat) (r : ActionResult).

(** Modelled from the spec: the action wrapper when a call settles
    (next-safe-action is not in src/).  Spec 4.1 and 6: the result is a
    success or a failure with a message, and the wrapper runs the callback
    that matches it.  An exception of the callback is the wrapper's to
    report, it does not reach [onSubmit]; the awaited call is over and the
    submit wrapper finishes. *)
Definition settle (r : ActionResult) (s : State) : State :=
  let after_callback :=
    match r with
    | ActionSuccess => snd (useAction_onSuccess s)
    | ActionFailure error => snd (useAction_onError error s)
    end in
  with_form (submit_finished false) after_callback.

Definition step (e : Event) (s : State) : option State :=
  match e with
  | ProfileChanged q => Some (with_partner q s)
  | Input v =>
      match program props, render (form s) with
      | Some prog, Some _ => Some (with_form (onChange (registered prog) v) s)
      | _, _ => None
      end
  | SubmitClick =>
      match program props, render (form s) with
      | Some prog, Some view =>
          if button_disabled (submit_button view) then None
          else Some (handleSubmit (registered prog) onSubmit s)
      | _, _ => None
      end
  | Settled k r =>
      match nth_error (inFlight s) k with
      | Some _ => Some (settle r (with_inFlight (remove_nth k) s))
      | None => None
      end
  end.

(** A run under stable props: every event belongs to a render with
    [props]. *)
Fixpoint run (evs : list Event) (s : State) : option State :=
  match evs with
  | [] => Some s
  | e :: rest =>
      match step e s with
      | Some s' => run rest s'
      | None => None
      end
  end.

(** The cell that the [setIsOpen] prop dispatches to. *)
Definition panel_open (s : State) : bool := store s (target (setIsOpen props)).

End Content.

(** A freshly mounted component: the form is in its initial state, nothing
    is in flight and nothing has been called yet. *)
Definition mount (st : Store) (q : option Partner.t) : State :=
  mkState st q useForm_initial [] [].

(** ** [ProgramApplicationSheet] and [useProgramApplicationSheet] *)

(** [ProgramApplicationSheetProps & { isOpen: boolean; nested?: boolean }] *)
Record PanelProps := mkPanelProps
  { isOpen : bool;
    nested : option bool;
    rest : ProgramApplicationSheetProps }.

(** The element [<Sheet open onOpenChange nested>] around the content
    component, which receives [rest]. *)
Record SheetElement := mkSheet
  { sheet_open : bool;
    onOpenChange : Dispatch;
    sheet_nested : option bool;
    content_props : ProgramApplicationSheetProps }.

Definition ProgramApplicationSheet (p : PanelProps) : SheetElement :=
  {| sheet_open := isOpen p;
     onOpenChange := setIsOpen (rest p);
     sheet_nested := nested p;
     content_props := rest p |}.

(** [Omit<ProgramApplicationSheetProps, "setIsOpen">] *)
Record HookProps := mkHookProps
  { hook_program : option Program.t;
    hook_onSuccess : option Callback }.

(** [useState(init)] on the cell [c] of the calling component: the first
    render initialises the cell, later renders read it; the setter is the
    dispatcher of that cell. *)
Definition useState (init : bool) (c : Cell) (first_render : bool) (st : Store)
  : (bool * Dispatch) * Store :=
  if first_render then ((init, dispatcher c), write c init st)
  else ((st c, dispatcher c), st).

Record HookResult := mkHookResult
  { programApplicationSheet : PanelProps;
    returned_setIsOpen : Dispatch }.

Definition useProgramApplicationSheet (props : HookProps) (c : Cell)
  (first_render : bool) (st : Store) : HookResult * Store :=
  let '((isOpen, setIsOpen), st') := useState false c first_render st in
  ({| programApplicationSheet :=
        {| isOpen := isOpen;
           nested := None;
           rest := mkProps setIsOpen (hook_program props) (hook_onSuccess props) |};
      returned_setIsOpen := setIsOpen |},
   st').

(** ** Observations used in the statements *)

(** The calls made between two states of one run. *)
Definition new_effects (s s' : State) : list Effect :=
  skipn (length (log s)) (log s').

Definition is_setIsOpen (e : Effect) : bool :=
  match e with CallSetIsOpen _ _ => true | _ => false end.
Definition is_toast_success (e : Effect) : bool :=
  match e with CallToastSuccess _ => true | _ => false end.
Definition is_toast (e : Effect) : bool :=
  match e with CallToastSuccess _ | CallToastError _ => true | _ => false end.
Definition is_action (e : Effect) : bool :=
  match e with CallAction _ => true | _ => false end.
Definition is_onSuccess (e : Effect) : bool :=
  match e with CallOnSuccess _ => true | _ => false end.

Definition count (p : Effect -> bool) (l : list Effect) : nat :=
  length (filter p l).

Definition callback_effects (cb : option Callback) : list Effect :=
  match cb with
  | Some f => [CallOnSuccess f]
  | None => []
  end.


(** What a run under stable props keeps true: at most one call is in
    flight; while one is, the form is submitting and the program is there; a
    checkbox that is never rendered never carries an error. *)
Definition calm (props : ProgramApplicationSheetProps) (s : State) : Prop :=
  length (inFlight s) <= 1
  /\ (inFlight s <> [] ->
      isSubmitting (form s) = true
      /\ program props <> None)
  /\ (forall prog, program props = Some prog ->
      truthy (Program.termsUrl prog) = false ->
      err_termsAgreement (errors (form s)) = None).

(** The errors a submit event leaves on the form before the handler runs. *)
Definition validated (prog : Program.t) (fs : FormState) : FieldErrors :=
  unset_root (executeBuiltInValidation (registered prog) (values fs) (errors fs)).

(** The input that [onSubmit] builds. *)
Definition merged (data : FormData.t) (q : Partner.t) (e : string) (prog : Program.t)
  : Payload.t :=
  {| Payload.proposal := FormData.proposal data;
     Payload.comments := FormData.comments data;
     Payload.termsAgreement := FormData.termsAgreement data;
     Payload.email := e;
     Payload.name := Partner.name q;
     Payload.website := Partner.website q;
     Payload.programId := Program.id prog |}.


(** ** A sample run: the scenario of the specification *)

Definition acme : Program.t :=
  Program.mk "prog_1" "acme" "Acme" "acme.com" None (Some "https://x/terms").

Definition partner_a : Partner.t := Partner.mk (Some "a@b.com") "A" None.

Definition acme_props : ProgramApplicationSheetProps :=
  mkProps (dispatcher 0) (Some acme) (Some (callback 0)).

Definition no_program_props : ProgramApplicationSheetProps :=
  mkProps (dispatcher 0) None None.

Definition open_store : Store := fun _ => true.

Definition filled : FormData.t := FormData.mk "I will blog" None true.

Definition mounted : State := mount open_store (Some partner_a).

(** The state a list of events leads to, [s] itself when an event of the
    list cannot happen. *)
Definition after (props : ProgramApplicationSheetProps) (evs : list Event) (s : State)
  : State :=
  match run props evs s with
  | Some s' => s'
  | None => s
  end.

(** The form is filled and submitted; the call is in flight. *)
Definition in_flight_state : State := after acme_props [Input filled; SubmitClick] mounted.

(** ** More observations: whole runs, the header image, the hook's panel *)

Definition is_mutate (e : Effect) : bool :=
  match e with CallMutate _ => true | _ => false end.

(** The four calls of the success callback. *)
Definition success_effects (props : ProgramApplicationSheetProps) (prog : Program.t)
  : list Effect :=
  [CallSetIsOpen (setIsOpen props) (SetValue false);
   CallMutate ("/api/partner-profile/programs/" ++ Program.slug prog)%string;
   CallToastSuccess "Application submitted!"]
  ++ callback_effects (onSuccess props).

(** The text of the error toast and of the root error. *)
Definition failure_message (error : ActionError) : string :=
  js_or (serverError error) "Failed to submit application".

(** What one event of a run does to the log, the calls in flight and the
    store. *)
Inductive Outcome (props : ProgramApplicationSheetProps) (e : Event) (s s' : State)
  : Prop :=
| quiet :
    log s' = log s -> inFlight s' = inFlight s -> store s' = store s ->
    Outcome props e s s'
| issued (prog : Program.t) (q : Partner.t) (m : string) :
    e = SubmitClick ->
    program props = Some prog -> partner s = Some q -> Partner.email q = Some m ->
    m <> "" ->
    isEmptyObject (validated prog (form s)) = true ->
    log s' = log s ++ [CallAction (merged (values (form s)) q m prog)] ->
    inFlight s' = inFlight s ++ [merged (values (form s)) q m prog] ->
    store s' = store s ->
    Outcome props e s s'
| succeeded (prog : Program.t) (k : nat) (input : Payload.t) :
    e = Settled k ActionSuccess ->
    program props = Some prog ->
    inFlight s = [input] -> inFlight s' = [] ->
    log s' = log s ++ success_effects props prog ->
    store s' = dispatch (setIsOpen props) (SetValue false) (store s) ->
    Outcome props e s s'
| failed (k : nat) (error : ActionError) (input : Payload.t) :
    e = Settled k (ActionFailure error) ->
    inFlight s = [input] -> inFlight s' = [] ->
    log s' = log s ++ [CallToastError (failure_message error)] ->
    store s' = store s ->
    Outcome props e s s'.

(** A call the component can have made: form data that passed validation,
    merged with a partner profile that has an email and with the program. *)
Definition well_formed_call (props : ProgramApplicationSheetProps) (input : Payload.t)
  : Prop :=
  exists data q m prog,
    program props = Some prog
    /\ Partner.email q = Some m /\ m <> ""
    /\ input = merged data q m prog
    /\ FormData.proposal data <> ""
    /\ (truthy (Program.termsUrl prog) = true -> FormData.termsAgreement data = true).

(** The values the user typed last, [d] when nothing was typed. *)
Fixpoint last_input (evs : list Event) (d : FormData.t) : FormData.t :=
  match evs with
  | [] => d
  | Input v :: more => last_input more v
  | _ :: more => last_input more d
  end.

Definition is_success (e : Event) : bool :=
  match e with Settled _ ActionSuccess => true | _ => false end.

Definition brings_email (e : Event) : bool :=
  match e with ProfileChanged q => truthy (partner_email q) | _ => false end.

(** The [src] of the header image:
    [program.logo || `${OG_AVATAR_URL}${program.name}`]; the constant is
    imported from the utilities package and is a parameter here. *)
Definition logo_src (OG_AVATAR_URL : string) (prog : Program.t) : string :=
  js_or (Program.logo prog) (OG_AVATAR_URL ++ Program.name prog)%string.

(** The [alt] of the header image. *)
Definition logo_alt (prog : Program.t) : string := Program.name prog.




Definition refused : ActionResult := ActionFailure (mkActionError (Some "Program not found")).

(** ** Runs over changing props *)

(** A run in which every event comes with the props of the render it
    belongs to: the render whose handlers the user reaches, for an input or
    a submit, and the render whose callbacks the action wrapper runs, for a
    settled call.  [run props] is the case of a parent that renders the same
    props throughout. *)
Fixpoint play (tevs : list (ProgramApplicationSheetProps * Event)) (s : State)
  : option State :=
  match tevs with
  | [] => Some s
  | (props, e) :: more =>
      match step props e s with
      | Some s' => play more s'
      | None => None
      end
  end.

Definition played (tevs : list (ProgramApplicationSheetProps * Event)) (s : State)
  : State :=
  match play tevs s with
  | Some s' => s'
  | None => s
  end.

Definition is_toast_error (e : Effect) : bool :=
  match e with CallToastError _ => true | _ => false end.

(** The successes of a run whose callback belongs to a render without
    program. *)
Definition thrown (tevs : list (ProgramApplicationSheetProps * Event)) : nat :=
  length (filter (fun pe => is_success (snd pe) && is_none (program (fst pe))) tevs).

(** The partner profile delivered last, [q] when none was. *)
Fixpoint last_profile (evs : list Event) (q : option Partner.t) : option Partner.t :=
  match evs with
  | [] => q
  | ProfileChanged q' :: more => last_profile more q'
  | _ :: more => last_profile more q
  end.

(** The program is still loading when the component mounts; the profile
    arrives, then the program; the user fills the form and submits. *)
Definition program_arrives_and_submit : list (ProgramApplicationSheetProps * Event) :=
  [(no_program_props, ProfileChanged (Some partner_a));
   (acme_props, Input filled);
   (acme_props, SubmitClick)].

(** The call is in flight. *)
Definition before_loss : State := played program_arrives_and_submit (mount open_store None).

(** The parent renders without the program again and the call succeeds:
    the success callback of a render without program runs. *)
Definition after_loss : State :=
  played [(no_program_props, Settled 0 ActionSuccess)] before_loss.


(** * Properties *)

(** [same x y]: two names of one value, by the equations at hand. *)
Ltac same x y := assert (x = y) by congruence; subst x.

(** ** The handlers *)

Lemma new_effects_app (s s' : State) (l : list Effect) :
  log s' = log s ++ l -> new_effects s s' = l.
Proof.
  intros H. unfold new_effects. rewrite H.
  rewrite skipn_app, skipn_all, Nat.sub_diag. reflexivity.
Qed.

Lemma truthy_nonempty (v : string) : truthy (Some v) = true <-> v <> "".
Proof.
  unfold truthy. destruct (String.eqb_spec v ""); simpl; split; congruence.
Qed.

(** An empty string counts as absent, for the terms URL as for the
    server's message. *)
Example empty_terms_url_no_checkbox :
  render_terms (Program.mk "prog_1" "acme" "Acme" "acme.com" None (Some "")) useForm_initial
  = None.
Proof. reflexivity. Qed.

Example empty_server_message_falls_back :
  js_or (Some "") "Failed to submit application" = "Failed to submit application".
Proof. reflexivity. Qed.

Lemma js_or_truthy (a : option string) (d : string) :
  js_or a d = match a with
              | Some v => if truthy a then v else d
              | None => d
              end.
Proof. destruct a as [v|]; simpl; [destruct (v =? "")|]; reflexivity. Qed.

(** What the success callback does when the program is there. *)
Lemma onSuccess_present props prog s :
  program props = Some prog ->
  useAction_onSuccess props s =
    (Normal tt,
     mkState (dispatch (setIsOpen props) (SetValue false) (store s))
       (partner s) (form s) (inFlight s)
       (log s ++ [CallSetIsOpen (setIsOpen props) (SetValue false);
                  CallMutate ("/api/partner-profile/programs/" ++ Program.slug prog)%string;
                  CallToastSuccess "Application submitted!"]
              ++ callback_effects (onSuccess props))).
Proof.
  intros Hp. unfold useAction_onSuccess, bind, call_dispatch, modify, non_null.
  rewrite Hp. unfold ret, mutate, toast_success, optional_call, modify.
  destruct (onSuccess props) as [cb|]; unfold ret, modify, emit, with_store; simpl;
    repeat rewrite <- app_assoc; simpl; try rewrite app_nil_r; reflexivity.
Qed.

(** Without a program the success callback closes the panel and then
    throws at [program!.slug]. *)
Lemma onSuccess_absent props s :
  program props = None ->
  exists e s', useAction_onSuccess props s = (Throw e, s')
               /\ log s' = log s ++ [CallSetIsOpen (setIsOpen props) (SetValue false)].
Proof.
  intros Hp. unfold useAction_onSuccess, bind, call_dispatch, modify, non_null.
  rewrite Hp. unfold throw. eexists. eexists. split; reflexivity.
Qed.

Lemma onError_run error s :
  useAction_onError error s =
    (Normal tt,
     mkState (store s) (partner s)
       (with_errors
          (set_error root_serverError
             (mkError manual_error (js_or (serverError error) "Failed to submit application")))
          (form s))
       (inFlight s)
       (log s ++ [CallToastError (js_or (serverError error) "Failed to submit application")])).
Proof. reflexivity. Qed.

(** The two ways [onSubmit] hands control back. *)
Lemma onSubmit_cases props data s :
  ((program props = None \/ truthy (partner_email (partner s)) = false)
   /\ onSubmit props data s = (Normal returned, s))
  \/ (exists prog q e,
        program props = Some prog /\ partner s = Some q /\ Partner.email q = Some e
        /\ e <> ""
        /\ onSubmit props data s =
             (Normal awaiting,
              mkState (store s) (partner s) (form s)
                (inFlight s ++ [merged data q e prog])
                (log s ++ [CallAction (merged data q e prog)]))).
Proof.
  unfold onSubmit, bind, usePartnerProfile.
  destruct (program props) as [prog|] eqn:Hp; simpl.
  2: { left. split; [left; reflexivity | reflexivity]. }
  destruct (partner s) as [q|] eqn:Hq; simpl.
  2: { left. split; [right; reflexivity | reflexivity]. }
  destruct (Partner.email q) as [e|] eqn:He; simpl.
  2: { left. split; [right; reflexivity | reflexivity]. }
  destruct (e =? "") eqn:Hempty; simpl.
  - left. split; [right; reflexivity | reflexivity].
  - right. exists prog, q, e.
    split; [reflexivity|]. split; [reflexivity|]. split; [exact He|].
    split; [apply String.eqb_neq; exact Hempty|].
    unfold ret, emit, with_inFlight, nullish_undefined. simpl.
    rewrite Hq. reflexivity.
Qed.

(** ** Validation at submit time *)

Lemma validated_empty prog fs :
  isEmptyObject (validated prog fs)
  = negb (FormData.proposal (values fs) =? "")
    && (if truthy (Program.termsUrl prog)
        then FormData.termsAgreement (values fs)
        else is_none (err_termsAgreement (errors fs))).
Proof.
  unfold validated, isEmptyObject, unset_root, executeBuiltInValidation, registered.
  simpl. unfold validateField, empty_text. simpl.
  destruct (FormData.proposal (values fs) =? ""); simpl; [reflexivity|].
  destruct (truthy (Program.termsUrl prog)); simpl.
  - unfold validateField, empty_checkbox. simpl.
    destruct (FormData.termsAgreement (values fs)); reflexivity.
  - rewrite andb_true_r. reflexivity.
Qed.

Lemma validated_proposal prog fs :
  err_proposal (validated prog fs)
  = if FormData.proposal (values fs) =? "" then Some (mkError required_error "") else None.
Proof.
  unfold validated, unset_root, executeBuiltInValidation, registered. simpl.
  unfold validateField, empty_text. simpl.
  destruct (FormData.proposal (values fs) =? ""); reflexivity.
Qed.

Lemma validated_comments prog fs : err_comments (validated prog fs) = None.
Proof. reflexivity. Qed.

Lemma validated_terms prog fs :
  err_termsAgreement (validated prog fs)
  = if truthy (Program.termsUrl prog)
    then (if FormData.termsAgreement (values fs) then None
          else Some (mkError required_error ""))
    else err_termsAgreement (errors fs).
Proof.
  unfold validated, unset_root, executeBuiltInValidation, registered. simpl.
  destruct (truthy (Program.termsUrl prog)); simpl; [|reflexivity].
  unfold validateField, empty_checkbox. simpl.
  destruct (FormData.termsAgreement (values fs)); reflexivity.
Qed.

(** ** One submit event *)

Lemma submit_step props s s' :
  step props SubmitClick s = Some s' ->
  exists prog,
    program props = Some prog
    /\ isSubmitting (form s) = false
    /\ isSubmitSuccessful (form s) = false
    /\ s' = handleSubmit (registered prog) (onSubmit props) s.
Proof.
  unfold step, render. destruct (program props) as [prog|]; [|discriminate].
  unfold button_disabled. simpl.
  destruct (isSubmitting (form s)); simpl; [discriminate|].
  destruct (isSubmitSuccessful (form s)); simpl; [discriminate|].
  intros H. injection H as <-. exists prog. repeat split.
Qed.

(** A field in error: the handler does not run. *)
Lemma handleSubmit_blocked props prog s :
  isEmptyObject (validated prog (form s)) = false ->
  handleSubmit (registered prog) (onSubmit props) s
  = mkState (store s) (partner s)
      (mkForm (values (form s)) (validated prog (form s)) false false true)
      (inFlight s) (log s).
Proof.
  intros H. unfold handleSubmit. simpl. fold (validated prog (form s)).
  rewrite H. unfold with_form, submit_finished. simpl. rewrite H. reflexivity.
Qed.

(** No field in error, but the guard of [onSubmit] returns. *)
Lemma handleSubmit_guarded props prog s :
  isEmptyObject (validated prog (form s)) = true ->
  program props = None \/ truthy (partner_email (partner s)) = false ->
  handleSubmit (registered prog) (onSubmit props) s
  = mkState (store s) (partner s)
      (mkForm (values (form s)) (validated prog (form s)) false true true)
      (inFlight s) (log s).
Proof.
  intros H G. unfold handleSubmit. simpl. fold (validated prog (form s)).
  rewrite H.
  match goal with |- context [onSubmit props ?d ?t] =>
    destruct (onSubmit_cases props d t) as [[_ E]|(p & q & e & Hp & Hq & He & Hne & _)]
  end.
  - rewrite E. unfold with_form, submit_finished. simpl. rewrite H. reflexivity.
  - exfalso. simpl in Hq. destruct G as [G|G]; [congruence|].
    rewrite Hq in G. simpl in G. rewrite He in G.
    apply truthy_nonempty in Hne. congruence.
Qed.

(** No field in error and the guard passes: one call is issued and the
    wrapper waits for it. *)
Lemma handleSubmit_calls props prog q e s :
  isEmptyObject (validated prog (form s)) = true ->
  program props = Some prog -> partner s = Some q -> Partner.email q = Some e -> e <> "" ->
  handleSubmit (registered prog) (onSubmit props) s
  = mkState (store s) (partner s)
      (mkForm (values (form s)) (validated prog (form s)) true (isSubmitSuccessful (form s))
         (isSubmitted (form s)))
      (inFlight s ++ [merged (values (form s)) q e prog])
      (log s ++ [CallAction (merged (values (form s)) q e prog)]).
Proof.
  intros H Hp Hq He Hne. unfold handleSubmit. simpl. fold (validated prog (form s)).
  rewrite H.
  match goal with |- context [onSubmit props ?d ?t] =>
    destruct (onSubmit_cases props d t) as [[G _]|(p' & q' & e' & Hp' & Hq' & He' & _ & E)]
  end.
  - exfalso. simpl in G. destruct G as [G|G]; [congruence|].
    rewrite Hq in G. simpl in G. rewrite He in G.
    apply truthy_nonempty in Hne. congruence.
  - rewrite E. simpl in Hq'. simpl.
    same q' q.
    same e' e.
    same p' prog.
    reflexivity.
Qed.

(** ** One settled call *)

Lemma settle_step props k r s s' :
  step props (Settled k r) s = Some s' ->
  exists input,
    nth_error (inFlight s) k = Some input
    /\ s' = settle props r (with_inFlight (remove_nth k) s).
Proof.
  simpl. destruct (nth_error (inFlight s) k) as [input|]; [|discriminate].
  intros H. injection H as <-. exists input. split; reflexivity.
Qed.

Lemma settle_success props prog s :
  program props = Some prog ->
  settle props ActionSuccess s
  = mkState (dispatch (setIsOpen props) (SetValue false) (store s))
      (partner s) (submit_finished false (form s)) (inFlight s)
      (log s ++ [CallSetIsOpen (setIsOpen props) (SetValue false);
                 CallMutate ("/api/partner-profile/programs/" ++ Program.slug prog)%string;
                 CallToastSuccess "Application submitted!"]
             ++ callback_effects (onSuccess props)).
Proof.
  intros Hp. unfold settle. rewrite (onSuccess_present props prog s Hp). reflexivity.
Qed.

Lemma settle_failure props error s :
  settle props (ActionFailure error) s
  = mkState (store s) (partner s)
      (submit_finished false
         (with_errors
            (set_error root_serverError
               (mkError manual_error (js_or (serverError error) "Failed to submit application")))
            (form s)))
      (inFlight s)
      (log s ++ [CallToastError (js_or (serverError error) "Failed to submit application")]).
Proof. reflexivity. Qed.

(** Whatever the result, the callbacks leave the calls in flight and the
    errors of the fields alone. *)
Lemma settle_frame props r s :
  inFlight (settle props r s) = inFlight s
  /\ err_termsAgreement (errors (form (settle props r s)))
     = err_termsAgreement (errors (form s)).
Proof.
  destruct r as [|error]; [|split; reflexivity].
  unfold settle, useAction_onSuccess, bind, call_dispatch, modify, non_null.
  destruct (program props) as [prog|]; [|split; reflexivity].
  unfold ret, mutate, toast_success, optional_call, modify.
  destruct (onSuccess props); split; reflexivity.
Qed.

Lemma remove_nth_single {A} (k : nat) (x y : A) :
  nth_error [x] k = Some y -> remove_nth k [x] = [].
Proof. destruct k as [|[|k]]; simpl; intros H; congruence. Qed.

(** ** One change of the fields *)

Lemma input_step props v s s' :
  step props (Input v) s = Some s' ->
  exists prog,
    program props = Some prog /\ s' = with_form (onChange (registered prog) v) s.
Proof.
  unfold step, render. destruct (program props) as [prog|]; [|discriminate].
  intros H. injection H as <-. exists prog. split; reflexivity.
Qed.

(** A checkbox that is not rendered keeps what it has. *)
Lemma onChange_terms prog v fs :
  truthy (Program.termsUrl prog) = false ->
  err_termsAgreement (errors (onChange (registered prog) v fs))
  = err_termsAgreement (errors fs).
Proof.
  intros Hf. unfold onChange, revalidate, recheck, registered. cbn [errors].
  destruct (isSubmitted fs); [|reflexivity]. cbn [err_termsAgreement reg_termsAgreement].
  rewrite Hf. destruct (Bool.eqb _ _); reflexivity.
Qed.

(** The comments field has no rule: a change never puts it in error. *)
Lemma onChange_comments prog v fs :
  err_comments (errors fs) = None ->
  err_comments (errors (onChange (registered prog) v fs)) = None.
Proof.
  intros Hold. unfold onChange, revalidate, recheck, registered. cbn [errors].
  destruct (isSubmitted fs); [|exact Hold]. cbn [err_comments reg_comments].
  destruct (optional_text_eqb _ _); [exact Hold | reflexivity].
Qed.

(** ** What every run keeps true *)

Lemma calm_one_in_flight props s k input :
  calm props s ->
  nth_error (inFlight s) k = Some input ->
  inFlight s = [input]
  /\ remove_nth k (inFlight s) = []
  /\ isSubmitting (form s) = true
  /\ program props <> None.
Proof.
  intros (Hlen & Hbusy & _) Hk.
  destruct (inFlight s) as [|x [|y l]] eqn:E.
  - destruct k; discriminate.
  - assert (Hx : x = input).
    { destruct k as [|[|k]]; simpl in Hk; congruence. }
    subst x. split; [reflexivity|].
    split; [exact (remove_nth_single k input input Hk)|].
    apply Hbusy. discriminate.
  - simpl in Hlen. lia.
Qed.

Lemma calm_idle props s :
  calm props s -> isSubmitting (form s) = false -> inFlight s = [].
Proof.
  intros (_ & Hbusy & _) Hidle.
  destruct (inFlight s) as [|x l] eqn:E; [reflexivity|].
  destruct Hbusy as (H & _); [discriminate|]. congruence.
Qed.

Lemma mount_calm props st q : calm props (mount st q).
Proof.
  unfold calm, mount. simpl. split; [lia|]. split; [congruence|]. reflexivity.
Qed.

Lemma step_calm props e s s' :
  calm props s -> step props e s = Some s' -> calm props s'.
Proof.
  intros C H. destruct e as [q|v| |k r].
  - (* the partner profile changes *)
    injection H as <-. exact C.
  - (* the user types *)
    destruct (input_step _ _ _ _ H) as (prog & Hp & ->).
    destruct C as (Hlen & Hbusy & Hterms). split; [exact Hlen|]. split; [exact Hbusy|].
    intros p0 Hp0 Hf. same p0 prog. cbn [form with_form errors].
    rewrite (onChange_terms prog v (form s) Hf). exact (Hterms prog Hp Hf).
  - (* the user submits *)
    destruct (submit_step _ _ _ H) as (prog & Hp & Hsub & _ & ->).
    pose proof (calm_idle _ _ C Hsub) as Hnone.
    destruct C as (_ & _ & Hterms).
    destruct (isEmptyObject (validated prog (form s))) eqn:Hv.
    + destruct (onSubmit_cases props (values (form s)) s)
        as [[G _]|(p' & q & e & Hp' & Hq & He & Hne & _)].
      * rewrite (handleSubmit_guarded props prog s Hv G). unfold calm. cbn [inFlight form errors isSubmitting].
        rewrite Hnone. split; [simpl; lia|]. split; [congruence|].
        intros p0 Hp0 Hf. same p0 prog.
        rewrite validated_terms, Hf. apply (Hterms prog Hp Hf).
      * same p' prog.
        rewrite (handleSubmit_calls props prog q e s Hv Hp Hq He Hne).
        unfold calm. cbn [inFlight form errors isSubmitting]. rewrite Hnone.
        split; [simpl; lia|].
        split; [intros _; split; [reflexivity | congruence]|].
        intros p0 Hp0 Hf. same p0 prog.
        rewrite validated_terms, Hf. apply (Hterms prog Hp Hf).
    + rewrite (handleSubmit_blocked props prog s Hv). unfold calm.
      cbn [inFlight form errors isSubmitting]. rewrite Hnone. split; [simpl; lia|]. split; [congruence|].
      intros p0 Hp0 Hf. same p0 prog.
      rewrite validated_terms, Hf. apply (Hterms prog Hp Hf).
  - (* a call settles *)
    destruct (settle_step _ _ _ _ _ H) as (input & Hk & ->).
    destruct (calm_one_in_flight _ _ _ _ C Hk) as (_ & Hrm & _).
    destruct C as (_ & _ & Hterms).
    destruct (settle_frame props r (with_inFlight (remove_nth k) s)) as (Hfl & Herr).
    unfold calm. rewrite Hfl, Herr. simpl. rewrite Hrm.
    split; [simpl; lia|]. split; [congruence|]. exact Hterms.
Qed.

Lemma run_calm props evs : forall s s',
  calm props s -> run props evs s = Some s' -> calm props s'.
Proof.
  induction evs as [|e evs IH]; intros s s' C H; simpl in H.
  - injection H as <-. exact C.
  - destruct (step props e s) as [s1|] eqn:E; [|discriminate].
    apply (IH s1 s'); [exact (step_calm _ _ _ _ C E) | exact H].
Qed.

Lemma reachable_calm props st q evs s :
  run props evs (mount st q) = Some s -> calm props s.
Proof. intros H. exact (run_calm props evs _ _ (mount_calm props st q) H). Qed.








(** Only a submit event calls the remote action. *)
Lemma only_submit_calls props e s s' :
  step props e s = Some s' -> e <> SubmitClick -> count is_action (new_effects s s') = 0.
Proof.
  intros H Hne. destruct e as [q|v| |k r].
  - injection H as <-. unfold new_effects. simpl. rewrite skipn_all. reflexivity.
  - destruct (input_step _ _ _ _ H) as (prog & _ & ->).
    unfold new_effects. simpl. rewrite skipn_all. reflexivity.
  - congruence.
  - destruct (settle_step _ _ _ _ _ H) as (input & _ & ->).
    destruct r as [|error].
    + destruct (program props) as [prog|] eqn:E.
      * rewrite (settle_success props prog _ E).
        erewrite new_effects_app; [|simpl; reflexivity].
        destruct (onSuccess props); reflexivity.
      * unfold settle, useAction_onSuccess, bind, call_dispatch, modify, non_null.
        rewrite E. erewrite new_effects_app; [|simpl; reflexivity]. reflexivity.
    + rewrite settle_failure. erewrite new_effects_app; [|simpl; reflexivity]. reflexivity.
Qed.

(** ** The claims *)

(** What the success callback does when its render has the program: the
    four calls in their order, and the open flag reads [false]. *)
Lemma success_effects_with_program props prog k s s' :
  program props = Some prog ->
  step props (Settled k ActionSuccess) s = Some s' ->
  panel_open props s' = false
  /\ new_effects s s' = success_effects props prog.
Proof.
  intros Hp Hstep. destruct (settle_step _ _ _ _ _ Hstep) as (input & _ & ->).
  rewrite (settle_success props prog _ Hp). split.
  - unfold panel_open, dispatch, write. simpl. rewrite Nat.eqb_refl. reflexivity.
  - erewrite new_effects_app; [|simpl]; reflexivity.
Qed.

(** C1.  The callbacks belong to a render, and a render may have no
    program.  The component mounts while the program is loading, the
    program arrives, the form is filled and submitted: one call is in
    flight.  The parent renders without the program again and the call
    succeeds.  Of the four effects only the first occurs: [setIsOpen(false)]
    is called and the flag reads [false]; the cache is not invalidated, no
    toast is shown and the [onSuccess] prop, though given at the submit, is
    not invoked. *)
Theorem success_after_program_lost :
  play program_arrives_and_submit (mount open_store None) = Some before_loss
  /\ log before_loss = [CallAction (merged filled partner_a "a@b.com" acme)]
  /\ inFlight before_loss = [merged filled partner_a "a@b.com" acme]
  /\ step no_program_props (Settled 0 ActionSuccess) before_loss = Some after_loss
  /\ new_effects before_loss after_loss = [CallSetIsOpen (dispatcher 0) (SetValue false)]
  /\ panel_open no_program_props after_loss = false
  /\ count is_mutate (new_effects before_loss after_loss) = 0
  /\ count is_toast (new_effects before_loss after_loss) = 0
  /\ count is_onSuccess (new_effects before_loss after_loss) = 0.
Proof. repeat split. Qed.

(** C2.  When a call settles with a failure, the open flag of the panel
    keeps its value [true]; the form gets the root error [serverError]
    whose message is [error.serverError || "Failed to submit application"],
    that is the server's message when it is there and not empty, and the
    fixed text otherwise; the only call made is the error toast with that
    same message; the remote action is not called again, here or by any
    later event other than a submit. *)
Theorem failure_side_effects props k error s s' :
  step props (Settled k (ActionFailure error)) s = Some s' ->
  panel_open props s = true ->
  exists msg,
    panel_open props s' = true
    /\ err_root_serverError (errors (form s')) = Some (mkError manual_error msg)
    /\ new_effects s s' = [CallToastError msg]
    /\ (forall v, serverError error = Some v -> v <> "" -> msg = v)
    /\ (truthy (serverError error) = false -> msg = "Failed to submit application")
    /\ inFlight s' = remove_nth k (inFlight s)
    /\ (forall e s2, step props e s' = Some s2 -> e <> SubmitClick ->
        count is_action (new_effects s' s2) = 0).
Proof.
  intros Hstep Hopen.
  destruct (settle_step _ _ _ _ _ Hstep) as (input & _ & ->).
  rewrite settle_failure.
  exists (js_or (serverError error) "Failed to submit application").
  split; [exact Hopen|]. split; [reflexivity|].
  split; [erewrite new_effects_app; [|simpl]; reflexivity|].
  split.
  { intros v Hv Hne. rewrite Hv. simpl.
    destruct (String.eqb_spec v ""); [contradiction | reflexivity]. }
  split.
  { intros Hf. rewrite js_or_truthy. destruct (serverError error); [rewrite Hf|]; reflexivity. }
  split; [reflexivity|].
  intros e s2 H2 Hne. exact (only_submit_calls _ _ _ _ H2 Hne).
Qed.

Lemma failure_side_effects_witness :
  step acme_props (Settled 0 (ActionFailure (mkActionError (Some "Program not found"))))
    in_flight_state
  = Some (after acme_props
            [Settled 0 (ActionFailure (mkActionError (Some "Program not found")))]
            in_flight_state)
  /\ panel_open acme_props in_flight_state = true
  /\ exists msg,
       panel_open acme_props
         (after acme_props
            [Settled 0 (ActionFailure (mkActionError (Some "Program not found")))]
            in_flight_state) = true
       /\ new_effects in_flight_state
            (after acme_props
               [Settled 0 (ActionFailure (mkActionError (Some "Program not found")))]
               in_flight_state)
          = [CallToastError msg]
       /\ msg = "Program not found".
Proof.
  split; [reflexivity|]. split; [reflexivity|].
  destruct (failure_side_effects acme_props 0 (mkActionError (Some "Program not found"))
              in_flight_state
              (after acme_props
                 [Settled 0 (ActionFailure (mkActionError (Some "Program not found")))]
                 in_flight_state)
              eq_refl eq_refl) as (msg & Hopen & _ & Hnew & Hmsg & _).
  exists msg. split; [exact Hopen|]. split; [exact Hnew|].
  apply (Hmsg "Program not found" eq_refl). discriminate.
Defined.

(** C4.  When the program is absent or the partner has no email (no
    partner yet, no email, or an empty one), [onSubmit] returns at its guard
    and leaves the whole state as it found it: nothing is called, nothing
    is in flight, the open flag, the log of calls and the form errors are
    untouched. *)
Theorem onSubmit_guard_noop props data s :
  program props = None \/ truthy (partner_email (partner s)) = false ->
  onSubmit props data s = (Normal returned, s)
  /\ new_effects s (snd (onSubmit props data s)) = []
  /\ inFlight (snd (onSubmit props data s)) = inFlight s
  /\ store (snd (onSubmit props data s)) = store s
  /\ errors (form (snd (onSubmit props data s))) = errors (form s).
Proof.
  intros G.
  assert (E : onSubmit props data s = (Normal returned, s)).
  { unfold onSubmit, bind, usePartnerProfile, ret.
    destruct G as [G|G]; [rewrite G; reflexivity|].
    rewrite G. rewrite orb_true_r. reflexivity. }
  rewrite E. simpl. unfold new_effects. rewrite skipn_all. repeat split.
Qed.

Lemma onSubmit_guard_noop_witness :
  onSubmit no_program_props filled mounted = (Normal returned, mounted)
  /\ onSubmit acme_props filled (mount open_store None)
     = (Normal returned, mount open_store None).
Proof.
  split.
  - exact (proj1 (onSubmit_guard_noop no_program_props filled mounted (or_introl eq_refl))).
  - exact (proj1 (onSubmit_guard_noop acme_props filled (mount open_store None)
                    (or_intror eq_refl))).
Defined.

(** C8.  Without a program the component returns [null]: there is no view,
    so no form, no field and no submit button, and no submit event can
    happen. *)
Theorem render_without_program props fs :
  program props = None ->
  render props fs = None
  /\ forall s, step props SubmitClick s = None.
Proof.
  intros Hp. unfold render, step. rewrite Hp. split; reflexivity.
Qed.

Lemma render_without_program_witness :
  render no_program_props useForm_initial = None.
Proof.
  exact (proj1 (render_without_program no_program_props useForm_initial eq_refl)).
Defined.

(** ** Submit events, seen from outside *)

Lemma truthy_email s :
  truthy (partner_email (partner s)) = true ->
  exists q e, partner s = Some q /\ Partner.email q = Some e /\ e <> "".
Proof.
  destruct (partner s) as [q|]; simpl; [|discriminate].
  destruct (Partner.email q) as [e|] eqn:He; [|discriminate].
  intros H. exists q, e. split; [reflexivity|]. split; [exact He|].
  apply truthy_nonempty. exact H.
Qed.

(** A submit that finds a field in error calls nothing. *)
Lemma submit_blocks props prog s s' :
  step props SubmitClick s = Some s' ->
  program props = Some prog ->
  isEmptyObject (validated prog (form s)) = false ->
  new_effects s s' = []
  /\ inFlight s' = inFlight s
  /\ errors (form s') = validated prog (form s).
Proof.
  intros H Hp Hv. destruct (submit_step _ _ _ H) as (p0 & Hp0 & _ & _ & ->).
  same p0 prog.
  rewrite (handleSubmit_blocked props prog s Hv). unfold new_effects. simpl.
  rewrite skipn_all. repeat split.
Qed.

(** A submit that passes validation and the guard calls the action once. *)
Lemma submit_issues props prog s s' :
  step props SubmitClick s = Some s' ->
  program props = Some prog ->
  isEmptyObject (validated prog (form s)) = true ->
  truthy (partner_email (partner s)) = true ->
  exists q e,
    partner s = Some q /\ Partner.email q = Some e /\ e <> ""
    /\ new_effects s s' = [CallAction (merged (values (form s)) q e prog)]
    /\ inFlight s' = inFlight s ++ [merged (values (form s)) q e prog]
    /\ errors (form s') = validated prog (form s).
Proof.
  intros H Hp Hv He. destruct (submit_step _ _ _ H) as (p0 & Hp0 & _ & _ & ->).
  same p0 prog.
  destruct (truthy_email s He) as (q & e & Hq & Hmail & Hne).
  exists q, e. split; [exact Hq|]. split; [exact Hmail|]. split; [exact Hne|].
  rewrite (handleSubmit_calls props prog q e s Hv Hp Hq Hmail Hne).
  split; [erewrite new_effects_app; [|simpl]; reflexivity|].
  split; reflexivity.
Qed.

Lemma submit_errors props prog s s' :
  step props SubmitClick s = Some s' ->
  program props = Some prog ->
  errors (form s') = validated prog (form s).
Proof.
  intros H Hp. destruct (isEmptyObject (validated prog (form s))) eqn:Hv.
  - destruct (submit_step _ _ _ H) as (p0 & Hp0 & _ & _ & E).
    same p0 prog.
    destruct (onSubmit_cases props (values (form s)) s)
      as [[G _]|(p' & q & e & Hp' & Hq & He & Hne & _)].
    + rewrite E, (handleSubmit_guarded props prog s Hv G). reflexivity.
    + same p' prog.
      rewrite E, (handleSubmit_calls props prog q e s Hv Hp Hq He Hne). reflexivity.
  - apply (submit_blocks props prog s s' H Hp Hv).
Qed.

(** C3.  In every run, at a submit event: when [program.termsUrl] is
    present (a non-empty string) the checkbox is on screen, a submit with
    the checkbox not checked calls nothing and leaves a required error on
    [termsAgreement], and a submit with the checkbox checked is let through
    by this field (with a proposal and a partner email the action is
    called); when [program.termsUrl] is absent (or empty) the checkbox is
    not on screen, the field never carries an error, and with a proposal
    and a partner email the action is called whatever the value of
    [termsAgreement] is. *)
Theorem terms_agreement_gate props prog st q evs s s' :
  run props evs (mount st q) = Some s ->
  program props = Some prog ->
  step props SubmitClick s = Some s' ->
  let agreed := FormData.termsAgreement (values (form s)) in
  let ready := FormData.proposal (values (form s)) <> ""
               /\ truthy (partner_email (partner s)) = true in
  if truthy (Program.termsUrl prog)
  then (exists v box, render props (form s) = Some v /\ terms_checkbox v = Some box)
       /\ (agreed = false ->
           new_effects s s' = [] /\ inFlight s' = inFlight s
           /\ err_termsAgreement (errors (form s')) = Some (mkError required_error ""))
       /\ (agreed = true ->
           err_termsAgreement (errors (form s')) = None
           /\ (ready -> exists input, new_effects s s' = [CallAction input]))
  else (exists v, render props (form s) = Some v /\ terms_checkbox v = None)
       /\ err_termsAgreement (errors (form s')) = None
       /\ (ready -> exists input,
             new_effects s s' = [CallAction input]
             /\ Payload.termsAgreement input = agreed).
Proof.
  intros Hrun Hp Hstep agreed ready.
  destruct (reachable_calm _ _ _ _ _ Hrun) as (_ & _ & Hterms).
  pose proof (submit_errors _ _ _ _ Hstep Hp) as Herr.
  pose proof (validated_empty prog (form s)) as Hv.
  pose proof (validated_terms prog (form s)) as Ht.
  destruct (truthy (Program.termsUrl prog)) eqn:Hurl.
  - split.
    { unfold render, render_terms. rewrite Hp.
      destruct (Program.termsUrl prog) as [url|]; [|discriminate].
      rewrite Hurl. eexists. eexists. split; reflexivity. }
    split.
    + intros Hno. fold agreed in Hv, Ht. rewrite Hno in Hv, Ht.
      rewrite andb_false_r in Hv.
      destruct (submit_blocks _ _ _ _ Hstep Hp Hv) as (Hnew & Hfl & _).
      split; [exact Hnew|]. split; [exact Hfl|]. rewrite Herr. exact Ht.
    + intros Hyes. fold agreed in Hv, Ht. rewrite Hyes in Hv, Ht.
      split; [rewrite Herr; exact Ht|].
      intros (Hprop & Hmail). apply String.eqb_neq in Hprop. rewrite Hprop in Hv.
      destruct (submit_issues _ _ _ _ Hstep Hp Hv Hmail)
        as (q0 & e & _ & _ & _ & Hnew & _).
      eexists. exact Hnew.
  - pose proof (Hterms prog Hp Hurl) as Hold. rewrite Hold in Hv, Ht.
    split.
    { unfold render, render_terms. rewrite Hp.
      destruct (Program.termsUrl prog) as [url|].
      - rewrite Hurl. eexists. split; reflexivity.
      - eexists. split; reflexivity. }
    split; [rewrite Herr; exact Ht|].
    intros (Hprop & Hmail). apply String.eqb_neq in Hprop. rewrite Hprop in Hv.
    destruct (submit_issues _ _ _ _ Hstep Hp Hv Hmail)
      as (q0 & e & _ & _ & _ & Hnew & _).
    eexists. split; [exact Hnew | reflexivity].
Qed.

Lemma terms_agreement_gate_witness :
  run acme_props [Input (FormData.mk "I will blog" None false)] mounted
  = Some (after acme_props [Input (FormData.mk "I will blog" None false)] mounted)
  /\ new_effects
       (after acme_props [Input (FormData.mk "I will blog" None false)] mounted)
       (after acme_props [Input (FormData.mk "I will blog" None false); SubmitClick] mounted)
     = [].
Proof.
  split; [reflexivity|].
  exact (proj1 (proj1 (proj2 (terms_agreement_gate acme_props acme open_store (Some partner_a)
           [Input (FormData.mk "I will blog" None false)]
           (after acme_props [Input (FormData.mk "I will blog" None false)] mounted)
           (after acme_props [Input (FormData.mk "I will blog" None false); SubmitClick] mounted)
           eq_refl eq_refl eq_refl)) eq_refl)).
Defined.

(** C5.  A submit with an empty proposal calls nothing and puts nothing in
    flight; the form carries a required error for [proposal] and the
    proposal field is drawn in its error style.  The [comments] field is
    registered without a rule: no value of it fails validation and a submit
    never leaves an error on it. *)
Theorem empty_proposal_blocked props s s' :
  step props SubmitClick s = Some s' ->
  FormData.proposal (values (form s)) = "" ->
  new_effects s s' = []
  /\ inFlight s' = inFlight s
  /\ err_proposal (errors (form s')) = Some (mkError required_error "")
  /\ (exists v, render props (form s') = Some v /\ proposal_invalid v = true)
  /\ err_comments (errors (form s')) = None
  /\ (forall prog c old,
        field_check empty_optional_text (reg_comments (registered prog)) c old = None).
Proof.
  intros Hstep Hempty.
  destruct (submit_step _ _ _ Hstep) as (prog & Hp & _).
  pose proof (validated_empty prog (form s)) as Hv.
  rewrite Hempty in Hv. simpl in Hv.
  destruct (submit_blocks _ _ _ _ Hstep Hp Hv) as (Hnew & Hfl & Herr).
  assert (Hprop : err_proposal (validated prog (form s)) = Some (mkError required_error "")).
  { rewrite validated_proposal, Hempty. reflexivity. }
  split; [exact Hnew|]. split; [exact Hfl|].
  split; [rewrite Herr; exact Hprop|].
  split.
  { unfold render. rewrite Hp. eexists. split; [reflexivity|].
    cbn [proposal_invalid]. rewrite Herr, Hprop. reflexivity. }
  split; [rewrite Herr; reflexivity|].
  intros prog0 c old. reflexivity.
Qed.

Lemma empty_proposal_blocked_witness :
  step acme_props SubmitClick mounted = Some (after acme_props [SubmitClick] mounted)
  /\ FormData.proposal (values (form mounted)) = ""
  /\ new_effects mounted (after acme_props [SubmitClick] mounted) = []
  /\ err_proposal (errors (form (after acme_props [SubmitClick] mounted)))
     = Some (mkError required_error "").
Proof.
  split; [reflexivity|]. split; [reflexivity|].
  destruct (empty_proposal_blocked acme_props mounted (after acme_props [SubmitClick] mounted)
              eq_refl eq_refl) as (Hnew & _ & Herr & _).
  split; [exact Hnew | exact Herr].
Defined.

(** C6.  In every run, a submit event that passes validation (a proposal is
    there, and the checkbox is checked when the terms are on screen) and the
    guard (program and partner email present) calls the remote action
    exactly once, and that call is then the only one in flight.  Its input
    is the form data merged with the partner's email, name and website and
    the id of the program.  In the scenario of the specification (program
    acme with terms, partner a@b.com named A, proposal "I will blog",
    checkbox checked) the one call carries that proposal, that email and
    name, the id of the program and [termsAgreement = true]. *)
Theorem outbound_payload :
  (forall props prog q e st q0 evs s s',
      run props evs (mount st q0) = Some s ->
      step props SubmitClick s = Some s' ->
      program props = Some prog ->
      partner s = Some q -> Partner.email q = Some e -> e <> "" ->
      FormData.proposal (values (form s)) <> "" ->
      (truthy (Program.termsUrl prog) = true ->
       FormData.termsAgreement (values (form s)) = true) ->
      let input :=
        {| Payload.proposal := FormData.proposal (values (form s));
           Payload.comments := FormData.comments (values (form s));
           Payload.termsAgreement := FormData.termsAgreement (values (form s));
           Payload.email := e;
           Payload.name := Partner.name q;
           Payload.website := Partner.website q;
           Payload.programId := Program.id prog |} in
      new_effects s s' = [CallAction input]
      /\ count is_action (new_effects s s') = 1
      /\ inFlight s' = [input])
  /\ (forall pid dom logo d cb comments st,
        let prog := Program.mk pid "acme" "Acme" dom logo (Some "https://x/terms") in
        let props := mkProps d (Some prog) cb in
        let start := mount st (Some (Partner.mk (Some "a@b.com") "A" None)) in
        exists s s',
          run props [Input (FormData.mk "I will blog" comments true)] start = Some s
          /\ step props SubmitClick s = Some s'
          /\ new_effects s s'
             = [CallAction
                  {| Payload.proposal := "I will blog";
                     Payload.comments := comments;
                     Payload.termsAgreement := true;
                     Payload.email := "a@b.com";
                     Payload.name := "A";
                     Payload.website := None;
                     Payload.programId := pid |}]).
Proof.
  split.
  - intros props prog q e st q0 evs s s' Hrun Hstep Hp Hq He Hne Hprop Hagreed input.
    pose proof (reachable_calm _ _ _ _ _ Hrun) as C.
    destruct (submit_step _ _ _ Hstep) as (_ & _ & Hidle & _).
    pose proof (calm_idle _ _ C Hidle) as Hnone.
    destruct C as (_ & _ & Hterms).
    assert (Hv : isEmptyObject (validated prog (form s)) = true).
    { rewrite validated_empty. apply String.eqb_neq in Hprop. rewrite Hprop. simpl.
      destruct (truthy (Program.termsUrl prog)) eqn:Hurl.
      - apply Hagreed. reflexivity.
      - rewrite (Hterms prog Hp Hurl). reflexivity. }
    assert (Hmail : truthy (partner_email (partner s)) = true).
    { rewrite Hq. simpl. rewrite He. apply truthy_nonempty. exact Hne. }
    destruct (submit_issues _ _ _ _ Hstep Hp Hv Hmail)
      as (q1 & e1 & Hq1 & He1 & _ & Hnew & Hfl & _).
    same q1 q.
    same e1 e.
    split; [exact Hnew|]. split; [rewrite Hnew; reflexivity|].
    rewrite Hfl, Hnone. reflexivity.
  - intros pid dom logo d cb comments st prog props start.
    eexists. eexists. split; [reflexivity|]. split; [reflexivity|].
    unfold new_effects. reflexivity.
Qed.

Lemma outbound_payload_witness :
  run acme_props [Input filled] mounted = Some (after acme_props [Input filled] mounted)
  /\ new_effects (after acme_props [Input filled] mounted) in_flight_state
     = [CallAction
          {| Payload.proposal := "I will blog";
             Payload.comments := None;
             Payload.termsAgreement := true;
             Payload.email := "a@b.com";
             Payload.name := "A";
             Payload.website := None;
             Payload.programId := "prog_1" |}].
Proof.
  split; [reflexivity|].
  refine (proj1 (proj1 outbound_payload acme_props acme partner_a "a@b.com"
                   open_store (Some partner_a) [Input filled]
                   (after acme_props [Input filled] mounted) in_flight_state
                   eq_refl eq_refl eq_refl eq_refl eq_refl _ _ _)).
  - discriminate.
  - discriminate.
  - intros _. reflexivity.
Defined.




(** [onSubmit] awaits [executeAsync] only when the program of its own
    render is there. *)
Lemma onSubmit_awaits_with_program props data s1 s2 :
  onSubmit props data s1 = (Normal awaiting, s2) -> program props <> None.
Proof.
  intros H.
  destruct (onSubmit_cases props data s1) as [[_ E]|(prog & _ & _ & Hp & _)].
  - rewrite E in H. discriminate.
  - congruence.
Qed.

(** C9.  The guard of [onSubmit] speaks for the render of the submit, not
    for the render whose success callback runs.  After the run in which the
    program arrives, the form is submitted and the parent renders without
    the program again, a call is in flight, its success is an event of the
    component, and the success callback of that render throws at
    [program!.slug]. *)
Theorem non_null_assertion_fails_after_program_lost :
  play program_arrives_and_submit (mount open_store None) = Some before_loss
  /\ nth_error (inFlight before_loss) 0 = Some (merged filled partner_a "a@b.com" acme)
  /\ program no_program_props = None
  /\ step no_program_props (Settled 0 ActionSuccess) before_loss <> None
  /\ fst (useAction_onSuccess no_program_props
            (with_inFlight (remove_nth 0) before_loss))
     = Throw (TypeError "Cannot read properties of undefined").
Proof.
  split; [reflexivity|]. split; [reflexivity|]. split; [reflexivity|].
  split; [discriminate | reflexivity].
Qed.

(** C10.  The first render of [useProgramApplicationSheet] initialises its
    cell to [false] and shows the panel closed.  At every later render the
    [isOpen] prop of the returned element is the value of that cell, the
    render leaves the store as it is, and the [setIsOpen] prop of the
    element, the [onOpenChange] of the sheet and the [setIsOpen] of the
    content are all the returned setter, the dispatcher of that cell.
    Dispatching an action through the returned setter is seen by the next
    render, and a dispatcher of another cell leaves the flag alone. *)
Theorem hook_owns_open_flag (props : HookProps) (c : Cell) (st : Store) :
  let first := useProgramApplicationSheet props c true st in
  let later := useProgramApplicationSheet props c false st in
  let panel := programApplicationSheet (fst later) in
  let setter := returned_setIsOpen (fst later) in
  isOpen (programApplicationSheet (fst first)) = false
  /\ snd first c = false
  /\ isOpen panel = st c
  /\ snd later = st
  /\ setIsOpen (rest panel) = setter
  /\ onOpenChange (ProgramApplicationSheet panel) = setter
  /\ sheet_open (ProgramApplicationSheet panel) = st c
  /\ setIsOpen (content_props (ProgramApplicationSheet panel)) = setter
  /\ returned_setIsOpen (fst first) = setter
  /\ target setter = c
  /\ (forall a,
        isOpen (programApplicationSheet
                  (fst (useProgramApplicationSheet props c false (dispatch setter a st))))
        = apply_action a (st c))
  /\ (forall d a, target d <> c ->
        isOpen (programApplicationSheet
                  (fst (useProgramApplicationSheet props c false (dispatch d a st))))
        = st c).
Proof.
  simpl. unfold write, dispatch, write. simpl. rewrite Nat.eqb_refl.
  repeat split.
  intros d a Hd. destruct (Nat.eqb_spec c (target d)); [congruence | reflexivity].
Qed.

(** * Whole runs *)

(** ** What one event does *)

Lemma step_outcome props e s s' :
  calm props s -> step props e s = Some s' -> Outcome props e s s'.
Proof.
  intros C H. destruct e as [q|v| |k r].
  - injection H as <-. apply quiet; reflexivity.
  - destruct (input_step _ _ _ _ H) as (prog & _ & ->). apply quiet; reflexivity.
  - destruct (submit_step _ _ _ H) as (prog & Hp & _ & _ & ->).
    destruct (isEmptyObject (validated prog (form s))) eqn:Hv.
    + destruct (onSubmit_cases props (values (form s)) s)
        as [[G _]|(p' & q & m & Hp' & Hq & Hm & Hne & _)].
      * rewrite (handleSubmit_guarded props prog s Hv G). apply quiet; reflexivity.
      * same p' prog.
        rewrite (handleSubmit_calls props prog q m s Hv Hp Hq Hm Hne).
        apply (issued props SubmitClick s _ prog q m); try reflexivity; assumption.
    + rewrite (handleSubmit_blocked props prog s Hv). apply quiet; reflexivity.
  - destruct (settle_step _ _ _ _ _ H) as (input & Hk & ->).
    destruct (calm_one_in_flight _ _ _ _ C Hk) as (Hone & Hrm & _ & Hp).
    destruct r as [|error].
    + destruct (program props) as [prog|] eqn:E; [|congruence].
      rewrite (settle_success props prog _ E).
      apply (succeeded props _ s _ prog k input); try reflexivity; try assumption.
    + rewrite settle_failure.
      apply (failed props _ s _ k error input); try reflexivity; assumption.
Qed.

Lemma run_snoc props evs : forall e s s1 s2,
  run props evs s = Some s1 -> step props e s1 = Some s2 ->
  run props (evs ++ [e]) s = Some s2.
Proof.
  induction evs as [|e0 evs IH]; intros e s s1 s2 H1 H2; simpl in *.
  - injection H1 as <-. rewrite H2. reflexivity.
  - destruct (step props e0 s) as [s0|]; [|discriminate].
    exact (IH e s0 s1 s2 H1 H2).
Qed.

(** A property of the mounted component that every event preserves holds
    after every run. *)
Lemma run_invariant props (P : State -> Prop) :
  (forall e s s', calm props s -> P s -> step props e s = Some s' -> P s') ->
  forall evs s s', calm props s -> P s -> run props evs s = Some s' -> P s'.
Proof.
  intros Hstep. induction evs as [|e evs IH]; intros s s' C HP H; simpl in H.
  - injection H as <-. exact HP.
  - destruct (step props e s) as [s1|] eqn:E; [|discriminate].
    exact (IH s1 s' (step_calm _ _ _ _ C E) (Hstep e s s1 C HP E) H).
Qed.

Lemma count_app (p : Effect -> bool) (l1 l2 : list Effect) :
  count p (l1 ++ l2) = count p l1 + count p l2.
Proof. unfold count. rewrite filter_app, length_app. reflexivity. Qed.

Lemma success_effects_no_call props prog input :
  ~ In (CallAction input) (success_effects props prog).
Proof.
  unfold success_effects. destruct (onSuccess props); simpl; intros H;
    repeat (destruct H as [H|H]; [discriminate|]); exact H.
Qed.

(** What one event does to the form. *)
Lemma step_form props e s s' :
  step props e s = Some s' ->
  match e with
  | ProfileChanged _ => form s' = form s
  | Input v =>
      values (form s') = v
      /\ err_root_serverError (errors (form s')) = err_root_serverError (errors (form s))
      /\ (err_comments (errors (form s)) = None -> err_comments (errors (form s')) = None)
  | SubmitClick =>
      values (form s') = values (form s)
      /\ exists prog, program props = Some prog
                      /\ errors (form s') = validated prog (form s)
  | Settled _ ActionSuccess =>
      values (form s') = values (form s) /\ errors (form s') = errors (form s)
  | Settled _ (ActionFailure error) =>
      values (form s') = values (form s)
      /\ errors (form s')
         = set_error root_serverError (mkError manual_error (failure_message error))
             (errors (form s))
  end.
Proof.
  intros H. destruct e as [q|v| |k r].
  - injection H as <-. reflexivity.
  - destruct (input_step _ _ _ _ H) as (prog & _ & ->).
    split; [reflexivity|]. split.
    + cbn [form with_form]. unfold onChange. cbn [errors].
      destruct (isSubmitted (form s)); reflexivity.
    + exact (onChange_comments prog v (form s)).
  - destruct (submit_step _ _ _ H) as (prog & Hp & _ & _ & E).
    split; [|exists prog; split; [exact Hp | exact (submit_errors _ _ _ _ H Hp)]].
    rewrite E. destruct (isEmptyObject (validated prog (form s))) eqn:Hv.
    + destruct (onSubmit_cases props (values (form s)) s)
        as [[G _]|(p' & q & m & Hp' & Hq & Hm & Hne & _)].
      * rewrite (handleSubmit_guarded props prog s Hv G). reflexivity.
      * same p' prog.
        rewrite (handleSubmit_calls props prog q m s Hv Hp Hq Hm Hne). reflexivity.
    + rewrite (handleSubmit_blocked props prog s Hv). reflexivity.
  - destruct (settle_step _ _ _ _ _ H) as (input & _ & ->).
    destruct r as [|error]; [|split; reflexivity].
    unfold settle, useAction_onSuccess, bind, call_dispatch, modify, non_null.
    destruct (program props) as [prog|]; [|split; reflexivity].
    unfold ret, mutate, toast_success, optional_call, modify.
    destruct (onSuccess props); split; reflexivity.
Qed.


Lemma js_or_nonempty (a : option string) (d : string) : d <> "" -> js_or a d <> "".
Proof.
  intros Hd. destruct a as [v|]; simpl; [|exact Hd].
  destruct (String.eqb_spec v ""); assumption.
Qed.

Lemma failure_message_nonempty error : failure_message error <> "".
Proof. apply js_or_nonempty. discriminate. Qed.

Lemma run_calls props evs : forall s s',
  calm props s ->
  (forall input, In (CallAction input) (log s) -> well_formed_call props input) ->
  run props evs s = Some s' ->
  forall input, In (CallAction input) (log s') -> well_formed_call props input.
Proof.
  apply (run_invariant props
           (fun s => forall input, In (CallAction input) (log s) ->
                                   well_formed_call props input)).
  intros e s s' C HP H input Hin.
  destruct (step_outcome _ _ _ _ C H)
    as [Hlog _ _ | prog q m _ Hp Hq Hm Hne Hv Hlog _ _ | prog k i0 _ Hp _ _ Hlog _
        | k error i0 _ _ _ Hlog _]; rewrite Hlog in Hin.
  - exact (HP input Hin).
  - apply in_app_or in Hin. destruct Hin as [Hin|[Hin|[]]]; [exact (HP input Hin)|].
    injection Hin as <-.
    exists (values (form s)), q, m, prog.
    rewrite validated_empty in Hv. apply andb_prop in Hv. destruct Hv as (Hprop & Hagreed).
    split; [exact Hp|]. split; [exact Hm|]. split; [exact Hne|]. split; [reflexivity|].
    split.
    + apply String.eqb_neq. apply negb_true_iff. exact Hprop.
    + intros Hurl. rewrite Hurl in Hagreed. exact Hagreed.
  - apply in_app_or in Hin. destruct Hin as [Hin|Hin]; [exact (HP input Hin)|].
    destruct (success_effects_no_call _ _ _ Hin).
  - apply in_app_or in Hin. destruct Hin as [Hin|[Hin|[]]]; [exact (HP input Hin)|].
    discriminate.
Qed.

(** ** Properties of whole runs *)

(** X2.  Every call the component makes carries a non-empty proposal, and
    when the program has terms (the checkbox is on screen) it carries
    [termsAgreement = true]. *)
Theorem calls_carry_validated_form props st q evs s input :
  run props evs (mount st q) = Some s ->
  In (CallAction input) (log s) ->
  Payload.proposal input <> ""
  /\ (forall prog, program props = Some prog ->
      truthy (Program.termsUrl prog) = true ->
      Payload.termsAgreement input = true).
Proof.
  intros Hrun Hin.
  assert (W : well_formed_call props input).
  { apply (run_calls props evs (mount st q) s (mount_calm props st q)); [|exact Hrun|exact Hin].
    intros i []. }
  destruct W as (data & profile & m & prog & Hp & _ & _ & -> & Hprop & Hagreed).
  split; [exact Hprop|].
  intros prog0 Hp0 Hurl. same prog0 prog. exact (Hagreed Hurl).
Qed.

Lemma calls_carry_validated_form_witness :
  run acme_props [Input filled; SubmitClick] mounted = Some in_flight_state
  /\ Payload.proposal (merged filled partner_a "a@b.com" acme) <> "".
Proof.
  split; [reflexivity|].
  exact (proj1 (calls_carry_validated_form acme_props open_store (Some partner_a)
                  [Input filled; SubmitClick] in_flight_state
                  (merged filled partner_a "a@b.com" acme)
                  eq_refl (or_introl eq_refl))).
Defined.

(** X3.  The user is never shown an empty error: every error toast of a run
    has a non-empty text, and so has the root error of the form whenever
    there is one. *)
Theorem error_message_never_empty props st q evs s :
  run props evs (mount st q) = Some s ->
  (forall msg, In (CallToastError msg) (log s) -> msg <> "")
  /\ (forall err, err_root_serverError (errors (form s)) = Some err -> message err <> "").
Proof.
  apply (run_invariant props
           (fun s => (forall msg, In (CallToastError msg) (log s) -> msg <> "")
                     /\ (forall err, err_root_serverError (errors (form s)) = Some err ->
                                     message err <> ""))
           ).
  - intros e s0 s1 C (Htoast & Hroot) H. split.
    + intros msg Hin.
      destruct (step_outcome _ _ _ _ C H)
        as [Hlog _ _ | prog p m _ _ _ _ _ _ Hlog _ _ | prog k i0 _ _ _ _ Hlog _
            | k error i0 _ _ _ Hlog _]; rewrite Hlog in Hin.
      * exact (Htoast msg Hin).
      * apply in_app_or in Hin. destruct Hin as [Hin|[Hin|[]]]; [exact (Htoast msg Hin)|].
        discriminate.
      * apply in_app_or in Hin. destruct Hin as [Hin|Hin]; [exact (Htoast msg Hin)|].
        unfold success_effects in Hin. destruct (onSuccess props); simpl in Hin;
          repeat (destruct Hin as [Hin|Hin]; [discriminate|]); destruct Hin.
      * apply in_app_or in Hin. destruct Hin as [Hin|[Hin|[]]]; [exact (Htoast msg Hin)|].
        injection Hin as <-. apply failure_message_nonempty.
    + intros err Herr. pose proof (step_form _ _ _ _ H) as F.
      destruct e as [p|v| |k [|error]].
      * rewrite F in Herr. exact (Hroot err Herr).
      * destruct F as (_ & F & _). rewrite F in Herr. exact (Hroot err Herr).
      * destruct F as (_ & prog & _ & F). rewrite F in Herr. discriminate.
      * destruct F as (_ & F). rewrite F in Herr. exact (Hroot err Herr).
      * destruct F as (_ & F). rewrite F in Herr. simpl in Herr.
        injection Herr as <-. apply failure_message_nonempty.
  - apply mount_calm.
  - split; [intros msg [] | intros err Herr; discriminate].
Qed.

Lemma error_message_never_empty_witness :
  run acme_props [Input filled; SubmitClick; Settled 0 refused] mounted
  = Some (after acme_props [Settled 0 refused] in_flight_state)
  /\ "Program not found" <> "".
Proof.
  split; [reflexivity|].
  refine (proj1 (error_message_never_empty acme_props open_store (Some partner_a)
                   [Input filled; SubmitClick; Settled 0 refused]
                   (after acme_props [Settled 0 refused] in_flight_state) eq_refl)
            "Program not found" _).
  right. left. reflexivity.
Defined.

(** X4.  The [comments] field is never in error: in every state of a run
    the form carries no error for it and the field is drawn in its normal
    style. *)
Theorem comments_never_in_error props st q evs s :
  run props evs (mount st q) = Some s ->
  err_comments (errors (form s)) = None
  /\ (forall v, render props (form s) = Some v -> comments_invalid v = false).
Proof.
  intros Hrun.
  assert (Hnone : err_comments (errors (form s)) = None).
  { revert Hrun.
    apply (run_invariant props (fun s => err_comments (errors (form s)) = None)).
    - intros e s0 s1 _ Hold H. pose proof (step_form _ _ _ _ H) as F.
      destruct e as [p|v| |k [|error]].
      + rewrite F. exact Hold.
      + destruct F as (_ & _ & F). exact (F Hold).
      + destruct F as (_ & prog & _ & F). rewrite F. reflexivity.
      + destruct F as (_ & F). rewrite F. exact Hold.
      + destruct F as (_ & F). rewrite F. exact Hold.
    - apply mount_calm.
    - reflexivity. }
  split; [exact Hnone|].
  intros v Hv. unfold render in Hv. destruct (program props); [|discriminate].
  injection Hv as <-. cbn [comments_invalid]. rewrite Hnone. reflexivity.
Qed.

Lemma comments_never_in_error_witness :
  run acme_props [Input filled; SubmitClick; Settled 0 refused] mounted
  = Some (after acme_props [Settled 0 refused] in_flight_state)
  /\ err_comments (errors (form (after acme_props [Settled 0 refused] in_flight_state)))
     = None.
Proof.
  split; [reflexivity|].
  exact (proj1 (comments_never_in_error acme_props open_store (Some partner_a)
                  [Input filled; SubmitClick; Settled 0 refused]
                  (after acme_props [Settled 0 refused] in_flight_state) eq_refl)).
Defined.

Lemma run_values props evs : forall s s',
  run props evs s = Some s' -> values (form s') = last_input evs (values (form s)).
Proof.
  induction evs as [|e evs IH]; intros s s' H; simpl in H.
  - injection H as <-. reflexivity.
  - destruct (step props e s) as [s1|] eqn:E; [|discriminate].
    rewrite (IH s1 s' H). pose proof (step_form _ _ _ _ E) as F.
    destruct e as [p|v| |k [|error]]; simpl.
    + rewrite F. reflexivity.
    + destruct F as (F & _). rewrite F. reflexivity.
    + destruct F as (F & _). rewrite F. reflexivity.
    + destruct F as (F & _). rewrite F. reflexivity.
    + destruct F as (F & _). rewrite F. reflexivity.
Qed.

(** X5.  The component never resets the form: after any run the field
    values are the ones the user typed last (the defaults when nothing was
    typed), whatever was submitted, refused or accepted in between. *)
Theorem values_are_last_input props st q evs s :
  run props evs (mount st q) = Some s ->
  values (form s) = last_input evs defaultValues.
Proof. intros Hrun. exact (run_values props evs _ _ Hrun). Qed.

Lemma values_are_last_input_witness :
  run acme_props [Input filled; SubmitClick; Settled 0 refused] mounted
  = Some (after acme_props [Settled 0 refused] in_flight_state)
  /\ values (form (after acme_props [Settled 0 refused] in_flight_state)) = filled.
Proof.
  split; [reflexivity|].
  exact (values_are_last_input acme_props open_store (Some partner_a)
           [Input filled; SubmitClick; Settled 0 refused]
           (after acme_props [Settled 0 refused] in_flight_state) eq_refl).
Defined.

Lemma count_same (p : Effect -> bool) (l extra : list Effect) :
  count p extra = 0 -> count p (l ++ extra) = count p l.
Proof. intros H. rewrite count_app, H. lia. Qed.




Lemma step_partner props e s s' :
  step props e s = Some s' ->
  partner s' = match e with ProfileChanged q => q | _ => partner s end.
Proof.
  intros H. destruct e as [q|v| |k r].
  - injection H as <-. reflexivity.
  - destruct (input_step _ _ _ _ H) as (prog & _ & ->). reflexivity.
  - destruct (submit_step _ _ _ H) as (prog & Hp & _ & _ & ->).
    destruct (isEmptyObject (validated prog (form s))) eqn:Hv.
    + destruct (onSubmit_cases props (values (form s)) s)
        as [[G _]|(p' & q & m & Hp' & Hq & Hm & Hne & _)].
      * rewrite (handleSubmit_guarded props prog s Hv G). reflexivity.
      * same p' prog.
        rewrite (handleSubmit_calls props prog q m s Hv Hp Hq Hm Hne). reflexivity.
    + rewrite (handleSubmit_blocked props prog s Hv). reflexivity.
  - destruct (settle_step _ _ _ _ _ H) as (input & _ & ->).
    destruct r as [|error]; [|reflexivity].
    unfold settle, useAction_onSuccess, bind, call_dispatch, modify, non_null.
    destruct (program props) as [prog|]; [|reflexivity].
    unfold ret, mutate, toast_success, optional_call, modify.
    destruct (onSuccess props); reflexivity.
Qed.

Lemma run_without_email props evs : forall s s',
  calm props s ->
  truthy (partner_email (partner s)) = false -> inFlight s = [] ->
  existsb brings_email evs = false ->
  run props evs s = Some s' ->
  log s' = log s /\ inFlight s' = [].
Proof.
  induction evs as [|e evs IH]; intros s s' C Hmail Hnone Hevs H; simpl in H.
  - injection H as <-. split; [reflexivity | exact Hnone].
  - destruct (step props e s) as [s1|] eqn:E; [|discriminate].
    simpl in Hevs. apply orb_false_elim in Hevs. destruct Hevs as (He & Hevs).
    assert (Hmail1 : truthy (partner_email (partner s1)) = false).
    { rewrite (step_partner _ _ _ _ E). destruct e; try exact Hmail. exact He. }
    assert (Hquiet : log s1 = log s /\ inFlight s1 = []).
    { destruct (step_outcome _ _ _ _ C E)
        as [Hlog Hfl _ | prog p m _ _ Hq Hm Hne _ _ _ _ | prog k i0 _ _ Hone _ _ _
            | k error i0 _ Hone _ _ _].
      - split; [exact Hlog | congruence].
      - exfalso. rewrite Hq in Hmail. simpl in Hmail. rewrite Hm in Hmail.
        apply truthy_nonempty in Hne. congruence.
      - congruence.
      - congruence. }
    destruct Hquiet as (Hlog1 & Hfl1).
    destruct (IH s1 s' (step_calm _ _ _ _ C E) Hmail1 Hfl1 Hevs H) as (Hlog & Hfl).
    split; [congruence | exact Hfl].
Qed.

(** X9.  As long as the partner profile has no email (it has not loaded,
    or it carries none), the component calls nothing at all: whatever the
    user types and however often the form is submitted, no remote call, no
    toast, no cache invalidation, and nothing is in flight. *)
Theorem no_email_no_call props st q evs s :
  run props evs (mount st q) = Some s ->
  truthy (partner_email q) = false ->
  existsb brings_email evs = false ->
  log s = [] /\ inFlight s = [].
Proof.
  intros Hrun Hmail Hevs.
  exact (run_without_email props evs (mount st q) s (mount_calm props st q)
           Hmail eq_refl Hevs Hrun).
Qed.

Lemma no_email_no_call_witness :
  run acme_props [Input filled; ProfileChanged None; SubmitClick] (mount open_store None)
  = Some (after acme_props [Input filled; ProfileChanged None; SubmitClick]
            (mount open_store None))
  /\ log (after acme_props [Input filled; ProfileChanged None; SubmitClick]
            (mount open_store None)) = [].
Proof.
  split; [reflexivity|].
  exact (proj1 (no_email_no_call acme_props open_store None
                  [Input filled; ProfileChanged None; SubmitClick]
                  (after acme_props [Input filled; ProfileChanged None; SubmitClick]
                     (mount open_store None))
                  eq_refl eq_refl eq_refl)).
Defined.

Lemma run_absent props evs : forall s s',
  program props = None -> inFlight s = [] ->
  run props evs s = Some s' ->
  log s' = log s /\ inFlight s' = [] /\ form s' = form s /\ store s' = store s.
Proof.
  induction evs as [|e evs IH]; intros s s' Hp Hnone H; simpl in H.
  - injection H as <-. repeat split. exact Hnone.
  - destruct (step props e s) as [s1|] eqn:E; [|discriminate].
    assert (Hsame : log s1 = log s /\ inFlight s1 = [] /\ form s1 = form s
                    /\ store s1 = store s).
    { destruct e as [q|v| |k r].
      - injection E as <-. repeat split. exact Hnone.
      - simpl in E. unfold render in E. rewrite Hp in E. discriminate.
      - simpl in E. rewrite Hp in E. discriminate.
      - simpl in E. rewrite Hnone in E. destruct k; discriminate. }
    destruct Hsame as (H1 & H2 & H3 & H4).
    destruct (IH s1 s' Hp H2 H) as (G1 & G2 & G3 & G4).
    repeat split; congruence.
Qed.

(** X10.  A component mounted without a program does nothing, whatever
    happens around it: after any run nothing was called, nothing is in
    flight, the form is in its initial state, the store is untouched and
    there is still nothing on screen. *)
Theorem run_without_program props st q evs s :
  program props = None ->
  run props evs (mount st q) = Some s ->
  log s = [] /\ inFlight s = [] /\ form s = useForm_initial /\ store s = st
  /\ render props (form s) = None.
Proof.
  intros Hp Hrun.
  destruct (run_absent props evs (mount st q) s Hp eq_refl Hrun) as (H1 & H2 & H3 & H4).
  repeat split; try assumption. unfold render. rewrite Hp. reflexivity.
Qed.

Lemma run_without_program_witness :
  run no_program_props [ProfileChanged (Some partner_a)] (mount open_store None)
  = Some (after no_program_props [ProfileChanged (Some partner_a)] (mount open_store None))
  /\ log (after no_program_props [ProfileChanged (Some partner_a)] (mount open_store None))
     = [].
Proof.
  split; [reflexivity|].
  exact (proj1 (run_without_program no_program_props open_store None
                  [ProfileChanged (Some partner_a)]
                  (after no_program_props [ProfileChanged (Some partner_a)]
                     (mount open_store None))
                  eq_refl eq_refl)).
Defined.

(** X11.  Called without a program, the success callback closes the panel
    and then throws at [program!.slug]: the open flag reads [false], and no
    cache entry is invalidated, no toast is shown and the [onSuccess] prop
    is not invoked. *)
Theorem success_without_program_closes_then_throws props s :
  program props = None ->
  exists e s',
    useAction_onSuccess props s = (Throw e, s')
    /\ new_effects s s' = [CallSetIsOpen (setIsOpen props) (SetValue false)]
    /\ panel_open props s' = false
    /\ form s' = form s /\ inFlight s' = inFlight s.
Proof.
  intros Hp. unfold useAction_onSuccess, bind, call_dispatch, modify, non_null.
  rewrite Hp. unfold throw. eexists. eexists. split; [reflexivity|].
  split; [erewrite new_effects_app; [|simpl]; reflexivity|].
  split; [|split; reflexivity].
  unfold panel_open, dispatch, write. simpl. rewrite Nat.eqb_refl. reflexivity.
Qed.

Lemma success_without_program_closes_then_throws_witness :
  exists e s',
    useAction_onSuccess no_program_props mounted = (Throw e, s')
    /\ panel_open no_program_props s' = false.
Proof.
  destruct (success_without_program_closes_then_throws no_program_props mounted eq_refl)
    as (e & s' & Hthrow & _ & Hclosed & _).
  exists e, s'. split; [exact Hthrow | exact Hclosed].
Defined.



Lemma append_empty (a b : string) : (a ++ b)%string = "" -> a = "" /\ b = "".
Proof. destruct a; simpl; intros H; [split; [reflexivity | exact H] | discriminate]. Qed.

(** X13.  The header image always has a source when there is something to
    build one from: the source is the program's logo when that is a
    non-empty string and the avatar URL followed by the program's name
    otherwise, so it is empty only when the logo is missing or empty and
    both the avatar URL and the name are empty. *)
Theorem logo_src_fallback (OG_AVATAR_URL : string) (prog : Program.t) :
  (forall v, Program.logo prog = Some v -> v <> "" -> logo_src OG_AVATAR_URL prog = v)
  /\ (truthy (Program.logo prog) = false ->
      logo_src OG_AVATAR_URL prog = (OG_AVATAR_URL ++ Program.name prog)%string)
  /\ (logo_src OG_AVATAR_URL prog = ""
      <-> truthy (Program.logo prog) = false
          /\ OG_AVATAR_URL = "" /\ Program.name prog = "").
Proof.
  unfold logo_src. rewrite js_or_truthy.
  destruct (Program.logo prog) as [v|] eqn:Hlogo.
  - destruct (truthy (Some v)) eqn:Hv.
    + apply truthy_nonempty in Hv. split; [intros v0 E _; congruence|].
      split; [discriminate|]. split; [intros E; contradiction | intros (E & _); discriminate].
    + split.
      { intros v0 E Hne. injection E as <-. apply truthy_nonempty in Hne. congruence. }
      split; [reflexivity|]. split.
      * intros E. split; [reflexivity | exact (append_empty _ _ E)].
      * intros (_ & -> & ->). reflexivity.
  - split; [discriminate|]. split; [reflexivity|]. split.
    + intros E. split; [reflexivity | exact (append_empty _ _ E)].
    + intros (_ & -> & ->). reflexivity.
Qed.

(** * Where a call comes from, and what answers it *)

Lemma run_partner props evs : forall s s',
  run props evs s = Some s' -> partner s' = last_profile evs (partner s).
Proof.
  induction evs as [|e evs IH]; intros s s' H; simpl in H.
  - injection H as <-. reflexivity.
  - destruct (step props e s) as [s1|] eqn:E; [|discriminate].
    rewrite (IH s1 s' H), (step_partner _ _ _ _ E). destruct e; reflexivity.
Qed.

(** Every call in the log was issued by a submit of the run, from the form
    and the profile of that moment. *)
Lemma run_call_origin props evs : forall s0 s,
  calm props s0 ->
  run props evs s0 = Some s ->
  forall input, In (CallAction input) (log s) ->
  In (CallAction input) (log s0)
  \/ exists evs1 evs2 s1 profile m prog,
       evs = evs1 ++ SubmitClick :: evs2
       /\ run props evs1 s0 = Some s1
       /\ partner s1 = Some profile /\ Partner.email profile = Some m /\ m <> ""
       /\ program props = Some prog
       /\ input = merged (values (form s1)) profile m prog.
Proof.
  induction evs as [|e evs IH]; intros s0 s C H input Hin; simpl in H.
  - injection H as <-. left. exact Hin.
  - destruct (step props e s0) as [s1|] eqn:E; [|discriminate].
    destruct (IH s1 s (step_calm _ _ _ _ C E) H input Hin)
      as [Hold|(evs1 & evs2 & s2 & profile & m & prog & -> & H1 & Hq & Hm & Hne & Hp & ->)].
    + destruct (step_outcome _ _ _ _ C E)
        as [Hlog _ _ | prog profile m -> Hp Hq Hm Hne _ Hlog _ _ | prog k i0 _ _ _ _ Hlog _
            | k error i0 _ _ _ Hlog _]; rewrite Hlog in Hold.
      * left. exact Hold.
      * apply in_app_or in Hold. destruct Hold as [Hold|[Hold|[]]]; [left; exact Hold|].
        injection Hold as <-. right.
        exists [], evs, s0, profile, m, prog. repeat split; assumption.
      * apply in_app_or in Hold. destruct Hold as [Hold|Hold]; [left; exact Hold|].
        destruct (success_effects_no_call _ _ _ Hold).
      * apply in_app_or in Hold. destruct Hold as [Hold|[Hold|[]]]; [left; exact Hold|].
        discriminate.
    + right. exists (e :: evs1), evs2, s2, profile, m, prog.
      split; [reflexivity|]. split; [simpl; rewrite E; exact H1|].
      repeat split; assumption.
Qed.

(** X1.  Every call the component makes was issued by a submit of the run
    and carries the identity of that moment: its email, name and website
    are those of the partner profile delivered last before that submit, the
    email is not empty, and its program id is that of the program of the
    props. *)
Theorem calls_carry_partner_and_program props st q evs s input :
  run props evs (mount st q) = Some s ->
  In (CallAction input) (log s) ->
  exists evs1 evs2 profile prog,
    evs = evs1 ++ SubmitClick :: evs2
    /\ last_profile evs1 q = Some profile
    /\ program props = Some prog
    /\ Partner.email profile = Some (Payload.email input)
    /\ Payload.email input <> ""
    /\ Payload.name input = Partner.name profile
    /\ Payload.website input = Partner.website profile
    /\ Payload.programId input = Program.id prog
    /\ Payload.proposal input = FormData.proposal (last_input evs1 defaultValues)
    /\ Payload.comments input = FormData.comments (last_input evs1 defaultValues).
Proof.
  intros Hrun Hin.
  destruct (run_call_origin props evs _ _ (mount_calm props st q) Hrun input Hin)
    as [[]|(evs1 & evs2 & s1 & profile & m & prog & -> & H1 & Hq & Hm & Hne & Hp & ->)].
  exists evs1, evs2, profile, prog.
  split; [reflexivity|].
  split; [rewrite <- Hq; symmetry; exact (run_partner props evs1 _ _ H1)|].
  split; [exact Hp|]. split; [exact Hm|]. split; [exact Hne|].
  split; [reflexivity|]. split; [reflexivity|]. split; [reflexivity|].
  rewrite (run_values props evs1 _ _ H1). split; reflexivity.
Qed.

Lemma calls_carry_partner_and_program_witness :
  run acme_props [Input filled; SubmitClick] mounted = Some in_flight_state
  /\ In (CallAction (merged filled partner_a "a@b.com" acme)) (log in_flight_state)
  /\ exists evs1 evs2 profile,
       [Input filled; SubmitClick] = evs1 ++ SubmitClick :: evs2
       /\ last_profile evs1 (Some partner_a) = Some profile
       /\ Partner.email profile = Some "a@b.com".
Proof.
  split; [reflexivity|]. split; [left; reflexivity|].
  destruct (calls_carry_partner_and_program acme_props open_store (Some partner_a)
              [Input filled; SubmitClick] in_flight_state
              (merged filled partner_a "a@b.com" acme)
              eq_refl (or_introl eq_refl))
    as (evs1 & evs2 & profile & prog & Hsplit & Hlast & _ & Hmail & _).
  exists evs1, evs2, profile. split; [exact Hsplit|]. split; [exact Hlast | exact Hmail].
Defined.

(** ** Runs over changing props *)

Lemma length_remove_nth {A} (l : list A) : forall k x,
  nth_error l k = Some x -> length l = S (length (remove_nth k l)).
Proof.
  induction l as [|y l IH]; intros k x H.
  - destruct k; discriminate.
  - destruct k as [|k]; simpl in *; [reflexivity|].
    rewrite (IH k x H). reflexivity.
Qed.

(** What one event does to the log and to the calls in flight, whatever the
    props of its render. *)
Lemma step_log props e s s' :
  step props e s = Some s' ->
  match e with
  | ProfileChanged _ | Input _ => log s' = log s /\ inFlight s' = inFlight s
  | SubmitClick =>
      (log s' = log s /\ inFlight s' = inFlight s)
      \/ exists input,
           log s' = log s ++ [CallAction input] /\ inFlight s' = inFlight s ++ [input]
  | Settled k ActionSuccess =>
      exists input,
        nth_error (inFlight s) k = Some input
        /\ inFlight s' = remove_nth k (inFlight s)
        /\ log s' = log s ++ match program props with
                             | Some prog => success_effects props prog
                             | None => [CallSetIsOpen (setIsOpen props) (SetValue false)]
                             end
  | Settled k (ActionFailure error) =>
      exists input,
        nth_error (inFlight s) k = Some input
        /\ inFlight s' = remove_nth k (inFlight s)
        /\ log s' = log s ++ [CallToastError (failure_message error)]
  end.
Proof.
  intros H. destruct e as [q|v| |k [|error]].
  - injection H as <-. split; reflexivity.
  - destruct (input_step _ _ _ _ H) as (prog & _ & ->). split; reflexivity.
  - destruct (submit_step _ _ _ H) as (prog & Hp & _ & _ & ->).
    destruct (isEmptyObject (validated prog (form s))) eqn:Hv.
    + destruct (onSubmit_cases props (values (form s)) s)
        as [[G _]|(p' & q & m & Hp' & Hq & Hm & Hne & _)].
      * rewrite (handleSubmit_guarded props prog s Hv G). left. split; reflexivity.
      * same p' prog.
        rewrite (handleSubmit_calls props prog q m s Hv Hp Hq Hm Hne).
        right. eexists. split; reflexivity.
    + rewrite (handleSubmit_blocked props prog s Hv). left. split; reflexivity.
  - destruct (settle_step _ _ _ _ _ H) as (input & Hk & ->).
    exists input. split; [exact Hk|].
    destruct (program props) as [prog|] eqn:E.
    + rewrite (settle_success props prog _ E). split; reflexivity.
    + unfold settle, useAction_onSuccess, bind, call_dispatch, modify, non_null.
      rewrite E. split; reflexivity.
  - destruct (settle_step _ _ _ _ _ H) as (input & Hk & ->).
    exists input. split; [exact Hk|]. rewrite settle_failure. split; reflexivity.
Qed.

Lemma count_single (p : Effect -> bool) (x : Effect) :
  count p [x] = if p x then 1 else 0.
Proof. unfold count. simpl. destruct (p x); reflexivity. Qed.

Lemma success_effects_tally props prog :
  count is_action (success_effects props prog) = 0
  /\ count is_toast_error (success_effects props prog) = 0
  /\ count is_setIsOpen (success_effects props prog) = 1
  /\ count is_mutate (success_effects props prog) = 1
  /\ count is_toast_success (success_effects props prog) = 1
  /\ count is_onSuccess (success_effects props prog) <= 1.
Proof.
  unfold success_effects. destruct (onSuccess props); unfold count; simpl;
    repeat split; lia.
Qed.

(** X6.  Every call to the remote action is answered exactly once, also
    when the props change between renders: after any run the number of
    calls made is the number of error toasts, plus the number of times the
    success callback has run (each run of it calls [setIsOpen] once), plus
    the number of calls still in flight. *)
Theorem every_call_answered_once tevs st q s :
  play tevs (mount st q) = Some s ->
  count is_action (log s)
  = count is_toast_error (log s) + count is_setIsOpen (log s) + length (inFlight s).
Proof.
  assert (G : forall tevs s0 s,
             count is_action (log s0)
             = count is_toast_error (log s0) + count is_setIsOpen (log s0)
               + length (inFlight s0) ->
             play tevs s0 = Some s ->
             count is_action (log s)
             = count is_toast_error (log s) + count is_setIsOpen (log s)
               + length (inFlight s)).
  { clear. induction tevs as [|[props e] tevs IH]; intros s0 s B H; simpl in H.
    - injection H as <-. exact B.
    - destruct (step props e s0) as [s1|] eqn:E; [|discriminate].
      apply (IH s1 s); [|exact H]. pose proof (step_log _ _ _ _ E) as L.
      destruct e as [p|v| |k [|error]].
      + destruct L as (-> & ->). exact B.
      + destruct L as (-> & ->). exact B.
      + destruct L as [(-> & ->)|(input & -> & ->)]; [exact B|].
        rewrite !count_app, length_app. unfold count at 2 4 6. simpl. lia.
      + destruct L as (input & Hk & -> & ->). rewrite !count_app.
        rewrite (length_remove_nth _ _ _ Hk) in B.
        destruct (program props) as [prog|].
        * destruct (success_effects_tally props prog) as (T1 & T2 & T3 & _).
          rewrite T1, T2, T3. lia.
        * unfold count at 2 4 6. simpl. lia.
      + destruct L as (input & Hk & -> & ->). rewrite !count_app.
        rewrite (length_remove_nth _ _ _ Hk) in B.
        unfold count at 2 4 6. simpl. lia. }
  intros H. apply (G tevs (mount st q) s); [reflexivity | exact H].
Qed.

Lemma every_call_answered_once_witness :
  play (program_arrives_and_submit ++ [(no_program_props, Settled 0 ActionSuccess)])
    (mount open_store None) = Some after_loss
  /\ count is_action (log after_loss) = 0 + 1 + 0.
Proof.
  split; [reflexivity|].
  exact (every_call_answered_once
           (program_arrives_and_submit ++ [(no_program_props, Settled 0 ActionSuccess)])
           open_store None after_loss eq_refl).
Defined.

(** X7.  The effects of a success come together, also when the props
    change between renders: after any run there are as many cache
    invalidations as success toasts, the [onSuccess] prop was invoked at
    most that often, and the calls to [setIsOpen] are the success toasts
    plus the successes whose callback belonged to a render without
    program. *)
Theorem success_effects_come_together tevs st q s :
  play tevs (mount st q) = Some s ->
  count is_mutate (log s) = count is_toast_success (log s)
  /\ count is_setIsOpen (log s) = count is_toast_success (log s) + thrown tevs
  /\ count is_onSuccess (log s) <= count is_toast_success (log s).
Proof.
  assert (G : forall tevs s0 s,
             play tevs s0 = Some s ->
             count is_mutate (log s) + count is_toast_success (log s0)
             = count is_toast_success (log s) + count is_mutate (log s0)
             /\ count is_setIsOpen (log s) + count is_toast_success (log s0)
                = count is_toast_success (log s) + count is_setIsOpen (log s0) + thrown tevs
             /\ count is_onSuccess (log s) + count is_toast_success (log s0)
                <= count is_toast_success (log s) + count is_onSuccess (log s0)).
  { clear. induction tevs as [|[props e] tevs IH]; intros s0 s H; simpl in H.
    - injection H as <-. unfold thrown. simpl. lia.
    - destruct (step props e s0) as [s1|] eqn:E; [|discriminate].
      destruct (IH s1 s H) as (I1 & I2 & I3).
      pose proof (step_log _ _ _ _ E) as L.
      change (thrown ((props, e) :: tevs))
        with (length (if is_success e && is_none (program props)
                      then (props, e) :: filter (fun pe => is_success (snd pe)
                                                           && is_none (program (fst pe))) tevs
                      else filter (fun pe => is_success (snd pe)
                                             && is_none (program (fst pe))) tevs)).
      fold (thrown tevs).
      destruct e as [p|v| |k [|error]]; cbn [is_success andb].
      + destruct L as (L & _). rewrite L in *. fold (thrown tevs). lia.
      + destruct L as (L & _). rewrite L in *. fold (thrown tevs). lia.
      + fold (thrown tevs).
        destruct L as [(L & _)|(input & L & _)]; rewrite L in *; [lia|].
        rewrite !count_app, !count_single in *. cbn in I1, I2, I3. lia.
      + destruct L as (input & _ & _ & L). rewrite L in *. rewrite !count_app in *.
        destruct (program props) as [prog|]; cbn [is_none length]; fold (thrown tevs).
        * destruct (success_effects_tally props prog) as (_ & _ & T3 & T4 & T5 & T6).
          lia.
        * rewrite !count_single in *. cbn in I1, I2, I3. lia.
      + fold (thrown tevs).
        destruct L as (input & _ & _ & L). rewrite L in *.
        rewrite !count_app, !count_single in *. cbn in I1, I2, I3. lia. }
  intros H. destruct (G tevs (mount st q) s H) as (G1 & G2 & G3).
  change (log (mount st q)) with (@nil Effect) in *. unfold count in *. simpl in *. lia.
Qed.

Lemma success_effects_come_together_witness :
  play (program_arrives_and_submit ++ [(no_program_props, Settled 0 ActionSuccess)])
    (mount open_store None) = Some after_loss
  /\ count is_setIsOpen (log after_loss) = 0 + 1.
Proof.
  split; [reflexivity|].
  exact (proj1 (proj2 (success_effects_come_together
           (program_arrives_and_submit ++ [(no_program_props, Settled 0 ActionSuccess)])
           open_store None after_loss eq_refl))).
Defined.
